(** * Capital-works portal: form validation, derived fields, request forwarding

    A shallow embedding of the TypeScript front end
    ([web/src/app/user/new-task], [web/src/components/TaskEditModal.tsx],
    [web/src/lib/api.ts]) and of the reporting contract of the back end.

    JavaScript values are modelled as the language defines them:
    - a string is a sequence of UTF-16 code units ([jsstring]);
    - a Number is an IEEE 754 binary64 value ([spec_float] at precision 53
      and maximal exponent 1024, rounding to nearest, ties to even);
    - an object used as a dictionary is a finite map from keys to values. *)

From Stdlib Require Import ZArith NArith QArith List String Ascii Bool Lia.
From Stdlib Require Import DecimalString.
From Stdlib Require Import Floats.SpecFloat.
From stdpp Require Import base option list gmap strings.

Local Open Scope Z_scope.
Set Warnings "-register-all".


(** ** JavaScript strings *)

Module JsString.

(** A code unit is a number below 65536; the model does not depend on the
    bound. *)
Definition code_unit := N.
Definition jsstring := list code_unit.

Definition of_ascii (a : ascii) : code_unit := N_of_ascii a.

(** The JavaScript string whose code units are the bytes of an ASCII
    literal. *)
Definition js (s : string) : jsstring :=
  List.map of_ascii (list_ascii_of_string s).

(** WhiteSpace and LineTerminator code points of ECMA-262: the characters
    removed by [String.prototype.trim] and skipped as StrWhiteSpaceChar. *)
Definition is_white_space (c : code_unit) : bool :=
  let z := Z.of_N c in
  (z =? 9) || (z =? 10) || (z =? 11) || (z =? 12) || (z =? 13) ||
  (z =? 32) || (z =? 160) || (z =? 5760) ||
  ((8192 <=? z) && (z <=? 8202)) ||
  (z =? 8232) || (z =? 8233) || (z =? 8239) || (z =? 8287) ||
  (z =? 12288) || (z =? 65279).

Fixpoint trim_start (s : jsstring) : jsstring :=
  match s with
  | c :: r => if is_white_space c then trim_start r else s
  | [] => []
  end.

Definition trim_end (s : jsstring) : jsstring :=
  rev (trim_start (rev s)).

(** [String.prototype.trim]. *)
Definition trim (s : jsstring) : jsstring := trim_end (trim_start s).

(** ToBoolean of a string: the empty string is the only falsy one. *)
Definition truthy (s : jsstring) : bool :=
  match s with [] => false | _ => true end.

Definition eqb (a b : jsstring) : bool :=
  if decide (a = b) then true else false.

End JsString.

Import JsString.

(** ** JavaScript numbers *)

Module JsNumber.

Definition prec : Z := 53.
Definition emax : Z := 1024.

Definition number := spec_float.

Definition NaN : number := S754_nan.
Definition Infinity : number := S754_infinity false.
Definition pos_zero : number := S754_zero false.
Definition neg_zero : number := S754_zero true.

(** [Number.isNaN] and [Number.isFinite] on a Number. *)
Definition isNaN (x : number) : bool :=
  match x with S754_nan => true | _ => false end.

Definition isFinite (x : number) : bool :=
  match x with
  | S754_zero _ | S754_finite _ _ _ => true
  | S754_infinity _ | S754_nan => false
  end.

Definition add : number -> number -> number := SFadd prec emax.
Definition sub : number -> number -> number := SFsub prec emax.
Definition neg : number -> number := SFopp.

(** [x < y]; a comparison with NaN is undefined, which [<] turns into
    false. [x > y] is [y < x]. *)
Definition lt (x y : number) : bool := SFltb x y.
Definition gt (x y : number) : bool := lt y x.
Definition le (x y : number) : bool := SFleb x y.

(** The Number nearest to the rational [p / q] ([0 <= p], [0 < q]) with
    the given sign. *)
Definition of_ratio (negative : bool) (p q : Z) : number :=
  match p with
  | Z0 => S754_zero negative
  | _ =>
      let '(mz, ez, lz) := SFdiv_core_binary prec emax p 0 q 0 in
      binary_round_aux prec emax negative mz ez lz
  end.

(** The Number nearest to [m * 10 ^ e] for [0 <= m]. *)
Definition of_decimal (negative : bool) (m e : Z) : number :=
  if 0 <=? e then of_ratio negative (m * 10 ^ e) 1
  else of_ratio negative m (10 ^ (- e)).

Definition of_Z (z : Z) : number :=
  of_ratio (z <? 0) (Z.abs z) 1.

(** The exact value of a finite Number as a fraction [(n, d)]. *)
Definition to_ratio (x : number) : option (Z * Z) :=
  match x with
  | S754_zero _ => Some (0, 1)
  | S754_finite s m e =>
      let n := if s then Z.neg m else Z.pos m in
      if 0 <=? e then Some (n * 2 ^ e, 1) else Some (n, 2 ^ (- e))
  | _ => None
  end.

End JsNumber.

Import JsNumber.

(** ** String to Number conversions *)

Module JsParse.

(** The value of a decimal digit, if the code unit is one. *)
Definition decimal_digit (c : code_unit) : option Z :=
  let z := Z.of_N c in
  if (48 <=? z) && (z <=? 57) then Some (z - 48) else None.

(** The value of a digit in radix 16, 8 or 2. *)
Definition radix_digit (radix : Z) (c : code_unit) : option Z :=
  let z := Z.of_N c in
  let v :=
    if (48 <=? z) && (z <=? 57) then Some (z - 48)
    else if (97 <=? z) && (z <=? 102) then Some (z - 87)
    else if (65 <=? z) && (z <=? 70) then Some (z - 55)
    else None in
  match v with
  | Some d => if d <? radix then Some d else None
  | None => None
  end.

(** The longest prefix of digits, as digit values, and what follows it. *)
Fixpoint span_digits (digit : code_unit -> option Z) (s : jsstring)
  : list Z * jsstring :=
  match s with
  | c :: r =>
      match digit c with
      | Some d => let '(ds, rest) := span_digits digit r in (d :: ds, rest)
      | None => ([], s)
      end
  | [] => ([], [])
  end.

(** The mathematical value of a digit sequence, most significant first. *)
Definition digits_value (radix : Z) (ds : list Z) : Z :=
  fold_left (fun acc d => acc * radix + d) ds 0.

(** SignedInteger of an ExponentPart: an optional sign, then at least one
    digit, then the end of the literal. *)
Definition parse_signed_integer (s : jsstring) : option Z :=
  let '(negative, body) :=
    match s with
    | 43%N :: r => (false, r)
    | 45%N :: r => (true, r)
    | _ => (false, s)
    end in
  match span_digits decimal_digit body with
  | ((_ :: _) as ds, []) =>
      let v := digits_value 10 ds in
      Some (if negative then - v else v)
  | _ => None
  end.

(** ExponentPart_opt followed by the end of the literal. *)
Definition parse_exponent_opt (s : jsstring) : option Z :=
  match s with
  | [] => Some 0
  | 101%N :: r | 69%N :: r => parse_signed_integer r
  | _ => None
  end.

(** StrUnsignedDecimalLiteral: [Infinity], or digits with an optional
    fraction and exponent; at least one digit before or after the dot. *)
Definition parse_unsigned_decimal (s : jsstring) : option number :=
  if JsString.eqb s (js "Infinity") then Some Infinity
  else
    let '(ip, r1) := span_digits decimal_digit s in
    let '(fp, r2) :=
      match r1 with
      | 46%N :: r => span_digits decimal_digit r
      | _ => ([], r1)
      end in
    match ip, fp with
    | [], [] => None
    | _, _ =>
        match parse_exponent_opt r2 with
        | Some e =>
            Some (of_decimal false (digits_value 10 (ip ++ fp))
                    (e - Z.of_nat (length fp)))
        | None => None
        end
    end.

(** StrDecimalLiteral: an optional sign before the unsigned literal. *)
Definition parse_decimal (s : jsstring) : option number :=
  match s with
  | 43%N :: r => parse_unsigned_decimal r
  | 45%N :: r => neg <$> parse_unsigned_decimal r
  | _ => parse_unsigned_decimal s
  end.

(** NonDecimalIntegerLiteral: [0x], [0o] or [0b] and at least one digit. *)
Definition parse_non_decimal (s : jsstring) : option number :=
  match s with
  | 48%N :: p :: r =>
      let radix :=
        if (p =? 120)%N || (p =? 88)%N then Some 16
        else if (p =? 111)%N || (p =? 79)%N then Some 8
        else if (p =? 98)%N || (p =? 66)%N then Some 2
        else None in
      match radix with
      | Some k =>
          match span_digits (radix_digit k) r with
          | ((_ :: _) as ds, []) => Some (of_Z (digits_value k ds))
          | _ => None
          end
      | None => None
      end
  | _ => None
  end.

(** [Number(s)] for a string: StringToNumber. White space around the
    literal is skipped, the empty literal is [+0], and a string that is no
    StringNumericLiteral is NaN. *)
Definition Number (s : jsstring) : number :=
  match trim s with
  | [] => pos_zero
  | t =>
      match parse_non_decimal t with
      | Some v => v
      | None =>
          match parse_decimal t with
          | Some v => v
          | None => NaN
          end
      end
  end.

(** [Number.parseInt(s, 10)]: leading white space and one sign are
    skipped, the longest prefix of decimal digits is read and the rest of
    the string is ignored; without a digit the result is NaN. *)
Definition parseInt10 (s : jsstring) : number :=
  let t := trim_start s in
  let '(negative, body) :=
    match t with
    | 45%N :: r => (true, r)
    | 43%N :: r => (false, r)
    | _ => (false, t)
    end in
  match span_digits decimal_digit body with
  | ([], _) => NaN
  | (ds, _) => of_ratio negative (digits_value 10 ds) 1
  end.

End JsParse.

Import JsParse.

(** ** Number formatting *)

Module JsFormat.

(** The decimal digits of a natural number. *)
Definition decimal_string (n : Z) : string :=
  DecimalString.NilZero.string_of_uint (N.to_uint (Z.to_N n)).

Fixpoint zeros (n : nat) : string :=
  match n with O => EmptyString | S k => String "0" (zeros k) end.

Section ToFixed.

(** [Number::toString], used by [toFixed] for a value that is not finite
    or is at least [10^21]; it is not modelled. *)
Variable Number_toString : number -> string.

(** [x.toFixed(f)] for [0 <= f <= 100]: the integer [n] nearest to
    [x * 10^f], the larger one on a tie, written with [f] digits after
    the point. *)
Definition toFixed (x : number) (f : nat) : string :=
  match to_ratio x with
  | None => Number_toString x
  | Some (n, d) =>
      let s := if n <? 0 then "-"%string else EmptyString in
      if 10 ^ 21 * d <=? Z.abs n
      then String.append s (Number_toString (SFabs x))
      else
        let k := (2 * Z.abs n * 10 ^ Z.of_nat f + d) / (2 * d) in
        let m := decimal_string k in
        let m :=
          match f with
          | O => m
          | _ =>
              let m :=
                if (String.length m <=? f)%nat
                then String.append (zeros (f + 1 - String.length m)) m
                else m in
              let k := String.length m in
              String.append (substring 0 (k - f) m)
                (String "." (substring (k - f) f m))
          end in
        String.append s m
  end.

End ToFixed.

End JsFormat.

(** ** The task form shared by the two components

    [FormState] of [user-task-client] and [TaskForm] of [TaskEditModal] are
    the same structural type: nine string fields. *)

Module Form.

Record FormState := {
  sub_division : jsstring;
  account_code : jsstring;
  number_of_works : jsstring;
  estimate_amount : jsstring;
  agreement_amount : jsstring;
  exp_upto_31_03_2025 : jsstring;
  exp_upto_last_month : jsstring;
  exp_during_this_month : jsstring;
  works_completed : jsstring
}.

Definition emptyForm : FormState := {|
  sub_division := [];
  account_code := [];
  number_of_works := [];
  estimate_amount := [];
  agreement_amount := [];
  exp_upto_31_03_2025 := [];
  exp_upto_last_month := [];
  exp_during_this_month := [];
  works_completed := []
|}.

(** [form[field]] for a key of the form. The keys are literals of type
    [keyof FormState]; no other key reaches the lookup. *)
Definition get (form : FormState) (field : string) : jsstring :=
  if String.eqb field "sub_division" then sub_division form
  else if String.eqb field "account_code" then account_code form
  else if String.eqb field "number_of_works" then number_of_works form
  else if String.eqb field "estimate_amount" then estimate_amount form
  else if String.eqb field "agreement_amount" then agreement_amount form
  else if String.eqb field "exp_upto_31_03_2025" then exp_upto_31_03_2025 form
  else if String.eqb field "exp_upto_last_month" then exp_upto_last_month form
  else if String.eqb field "exp_during_this_month" then exp_during_this_month form
  else if String.eqb field "works_completed" then works_completed form
  else [].

Definition floatFields : list string :=
  [ "estimate_amount"; "agreement_amount"; "exp_upto_31_03_2025";
    "exp_upto_last_month"; "exp_during_this_month" ]%string.

Definition intFields : list string :=
  [ "number_of_works"; "works_completed" ]%string.

Inductive number_type := TInt | TFloat.

(** The result object of [parseNumber]. *)
Record parse_result := {
  value : option number;
  error : string
}.

(** ToBoolean of an error message. *)
Definition has_error (r : parse_result) : bool :=
  negb (String.eqb (error r) EmptyString).

(** The derived values shown under the form; [None] is [null]. *)
Record Computed := {
  balanceAmount : option number;
  totalYear : option number;
  totalValue : option number;
  balanceWorks : option number
}.

(** [Number.isFinite] of a value that may be [null]: a non-Number is not
    finite. *)
Definition isFinite_opt (x : option number) : bool :=
  match x with Some v => isFinite v | None => false end.

(** [a !== null && b !== null && test(a, b)]. *)
Definition both (test : number -> number -> bool) (a b : option number) : bool :=
  match a, b with
  | Some x, Some y => test x y
  | _, _ => false
  end.

(** The body sent to the back end. *)
Record Payload := {
  p_sub_division : jsstring;
  p_account_code : jsstring;
  p_number_of_works : number;
  p_estimate_amount : number;
  p_agreement_amount : number;
  p_exp_upto_31_03_2025 : number;
  p_exp_upto_last_month : number;
  p_exp_during_this_month : number;
  p_works_completed : number
}.

(** [["Spill", "New"].includes(code)]. *)
Definition is_account_code (code : jsstring) : bool :=
  existsb (JsString.eqb code) [js "Spill"; js "New"].

End Form.

Import Form.

(** ** [user-task-client.tsx]: the new-task form *)

Module NewTask.

Definition parseNumber (value : jsstring) (type : number_type) : parse_result :=
  let trimmed := trim value in
  if negb (truthy trimmed) then {| value := None; error := "Required." |}
  else
    let parsed :=
      match type with
      | TInt => parseInt10 trimmed
      | TFloat => Number trimmed
      end in
    if isNaN parsed then
      {| value := None;
         error := match type with
                  | TInt => "Enter a whole number."
                  | TFloat => "Enter a valid number."
                  end |}
    else if lt parsed pos_zero then
      {| value := None; error := "Must be non-negative." |}
    else {| value := Some parsed; error := EmptyString |}.

(** The part of the component state that validation and submission read. *)
Record State := {
  form : FormState;
  otherSubdivision : jsstring
}.

Definition isOtherSelected (st : State) : bool :=
  JsString.eqb (sub_division (form st)) (js "Other...").

Definition resolvedSubdivision (st : State) : jsstring :=
  if isOtherSelected st then trim (otherSubdivision st)
  else trim (sub_division (form st)).

Definition toNumber (value : jsstring) : number :=
  let trimmed := trim value in
  if negb (truthy trimmed) then NaN else Number trimmed.

Definition computed (form : FormState) : Computed :=
  let agreement := toNumber (agreement_amount form) in
  let exp31 := toNumber (exp_upto_31_03_2025 form) in
  let expLast := toNumber (exp_upto_last_month form) in
  let expThis := toNumber (exp_during_this_month form) in
  let works := toNumber (number_of_works form) in
  let completed := toNumber (works_completed form) in
  let balanceAmount :=
    if isFinite agreement && isFinite exp31
    then Some (sub agreement exp31) else None in
  let totalYear :=
    if isFinite expLast && isFinite expThis
    then Some (add expLast expThis) else None in
  let totalValue :=
    if isFinite exp31 && isFinite_opt totalYear
    then add exp31 <$> totalYear else None in
  let balanceWorks :=
    if isFinite works && isFinite completed
    then Some (sub works completed) else None in
  {| balanceAmount := balanceAmount; totalYear := totalYear;
     totalValue := totalValue; balanceWorks := balanceWorks |}.

(** One step of [fields.forEach]: record the field's error, if any. *)
Definition check_field (form : FormState) (type : number_type)
    (nextErrors : gmap string string) (field : string) : gmap string string :=
  let result := parseNumber (Form.get form field) type in
  if has_error result then <[field := error result]> nextErrors
  else nextErrors.

Definition validate (st : State) : gmap string string :=
  let nextErrors : gmap string string := ∅ in
  let nextErrors :=
    if negb (truthy (resolvedSubdivision st))
    then <["sub_division" := "Sub-Division is required."]> nextErrors
    else nextErrors in
  let nextErrors :=
    if negb (is_account_code (account_code (form st)))
    then <["account_code" := "Account Code is required."]> nextErrors
    else nextErrors in
  let nextErrors := fold_left (check_field (form st) TInt) intFields nextErrors in
  let nextErrors := fold_left (check_field (form st) TFloat) floatFields nextErrors in
  let works := value (parseNumber (number_of_works (form st)) TInt) in
  let completed := value (parseNumber (works_completed (form st)) TInt) in
  let nextErrors :=
    if both (fun works completed => gt completed works) works completed
    then <["works_completed" :=
             "Number of Works Completed cannot exceed Number of Works."]>
           nextErrors
    else nextErrors in
  let agreement := value (parseNumber (agreement_amount (form st)) TFloat) in
  let exp31 := value (parseNumber (exp_upto_31_03_2025 (form st)) TFloat) in
  let nextErrors :=
    if both (fun agreement exp31 => lt agreement exp31) agreement exp31
    then <["exp_upto_31_03_2025" :=
             "Expenditure up to 31-03-2025 must be <= Agreement Amount."]>
           nextErrors
    else nextErrors in
  nextErrors.

(** The object built by [handleSubmit] once validation found nothing. *)
Definition payload (st : State) : Payload := {|
  p_sub_division := resolvedSubdivision st;
  p_account_code := account_code (form st);
  p_number_of_works := Number (number_of_works (form st));
  p_estimate_amount := Number (estimate_amount (form st));
  p_agreement_amount := Number (agreement_amount (form st));
  p_exp_upto_31_03_2025 := Number (exp_upto_31_03_2025 (form st));
  p_exp_upto_last_month := Number (exp_upto_last_month (form st));
  p_exp_during_this_month := Number (exp_during_this_month (form st));
  p_works_completed := Number (works_completed (form st))
|}.

(** [formatFloat]: two digits after the point. *)
Definition formatFloat (Number_toString : number -> string) (value : number)
  : string :=
  JsFormat.toFixed Number_toString value 2.

(** [handleSubmit] up to the request: with a validation error nothing is
    sent ([None]); otherwise the payload is posted. *)
Definition handleSubmit (st : State) : gmap string string * option Payload :=
  let validation := validate st in
  if 0 <? Z.of_nat (size validation) then (validation, None)
  else (validation, Some (payload st)).

End NewTask.

(** ** [TaskEditModal.tsx]: the edit dialog *)

Module EditModal.

Definition parseNumber (value : jsstring) (type : number_type) : parse_result :=
  let trimmed := trim value in
  if negb (truthy trimmed) then {| value := None; error := "Required." |}
  else
    let parsed :=
      match type with
      | TInt => parseInt10 trimmed
      | TFloat => Number trimmed
      end in
    if isNaN parsed then
      {| value := None;
         error := match type with
                  | TInt => "Enter a whole number."
                  | TFloat => "Enter a valid number."
                  end |}
    else if lt parsed pos_zero then
      {| value := None; error := "Must be non-negative." |}
    else {| value := Some parsed; error := EmptyString |}.

Definition toNumber (value : jsstring) : number :=
  let trimmed := trim value in
  if negb (truthy trimmed) then NaN else Number trimmed.

Definition computed (form : FormState) : Computed :=
  let agreement := toNumber (agreement_amount form) in
  let exp31 := toNumber (exp_upto_31_03_2025 form) in
  let expLast := toNumber (exp_upto_last_month form) in
  let expThis := toNumber (exp_during_this_month form) in
  let works := toNumber (number_of_works form) in
  let completed := toNumber (works_completed form) in
  let balanceAmount :=
    if isFinite agreement && isFinite exp31
    then Some (sub agreement exp31) else None in
  let totalYear :=
    if isFinite expLast && isFinite expThis
    then Some (add expLast expThis) else None in
  let totalValue :=
    if isFinite exp31 && isFinite_opt totalYear
    then add exp31 <$> totalYear else None in
  let balanceWorks :=
    if isFinite works && isFinite completed
    then Some (sub works completed) else None in
  {| balanceAmount := balanceAmount; totalYear := totalYear;
     totalValue := totalValue; balanceWorks := balanceWorks |}.

Definition check_field (form : FormState) (type : number_type)
    (nextErrors : gmap string string) (field : string) : gmap string string :=
  let result := parseNumber (Form.get form field) type in
  if has_error result then <[field := error result]> nextErrors
  else nextErrors.

Definition validate (form : FormState) : gmap string string :=
  let nextErrors : gmap string string := ∅ in
  let nextErrors :=
    if negb (truthy (trim (sub_division form)))
    then <["sub_division" := "Sub-Division is required."]> nextErrors
    else nextErrors in
  let nextErrors :=
    if negb (is_account_code (account_code form))
    then <["account_code" := "Account Code is required."]> nextErrors
    else nextErrors in
  let nextErrors := fold_left (check_field form TInt) intFields nextErrors in
  let nextErrors := fold_left (check_field form TFloat) floatFields nextErrors in
  let works := value (parseNumber (number_of_works form) TInt) in
  let completed := value (parseNumber (works_completed form) TInt) in
  let nextErrors :=
    if both (fun works completed => gt completed works) works completed
    then <["works_completed" :=
             "Number of Works Completed cannot exceed Number of Works."]>
           nextErrors
    else nextErrors in
  let agreement := value (parseNumber (agreement_amount form) TFloat) in
  let exp31 := value (parseNumber (exp_upto_31_03_2025 form) TFloat) in
  let nextErrors :=
    if both (fun agreement exp31 => lt agreement exp31) agreement exp31
    then <["exp_upto_31_03_2025" :=
             "Expenditure up to 31-03-2025 must be <= Agreement Amount."]>
           nextErrors
    else nextErrors in
  nextErrors.

(** [formatFloat]: a dash for [null] and NaN, else two digits after the
    point. *)
Definition formatFloat (Number_toString : number -> string)
    (value : option number) : string :=
  match value with
  | None => "-"
  | Some v =>
      if isNaN v then "-" else JsFormat.toFixed Number_toString v 2
  end.

(** The object [handleSave] passes to [onSave]. *)
Definition payload (form : FormState) : Payload := {|
  p_sub_division := trim (sub_division form);
  p_account_code := account_code form;
  p_number_of_works := Number (number_of_works form);
  p_estimate_amount := Number (estimate_amount form);
  p_agreement_amount := Number (agreement_amount form);
  p_exp_upto_31_03_2025 := Number (exp_upto_31_03_2025 form);
  p_exp_upto_last_month := Number (exp_upto_last_month form);
  p_exp_during_this_month := Number (exp_during_this_month form);
  p_works_completed := Number (works_completed form)
|}.

(** [handleSave] up to the call of [onSave]: nothing is saved when
    validation found an error or when no task is being edited. *)
Definition handleSave (has_task : bool) (form : FormState)
  : gmap string string * option Payload :=
  let validation := validate form in
  if 0 <? Z.of_nat (size validation) then (validation, None)
  else if negb has_task then (validation, None)
  else (validation, Some (payload form)).

End EditModal.

(** ** [lib/api.ts]: forwarding requests to the back end *)

Module Api.

(** A value of a query parameter: [string | number | boolean | undefined |
    null]. *)
Inductive QueryValue :=
| QString (s : jsstring)
| QNumber (n : number)
| QBoolean (b : bool)
| QUndefined
| QNull.

(** The entries of a [QueryParams] object, in [Object.entries] order. *)
Definition QueryParams := list (jsstring * QueryValue).

(** A JSON value, as [request.json()] produces it. *)
Inductive json :=
| JNull
| JBool (b : bool)
| JNumber (n : number)
| JString (s : jsstring)
| JArray (items : list json)
| JObject (fields : list (jsstring * json)).

(** What a rejected [fetch] throws: an [Error] with its message, or any
    other value. *)
Inductive Thrown :=
| ThrownError (message : jsstring)
| ThrownOther.

(** A [Response]: its status, its headers by lower-case name and its body
    text. *)
Record Response := {
  status : Z;
  res_headers : gmap string jsstring;
  res_body : jsstring
}.

Inductive FetchOutcome :=
| Fulfilled (res : Response)
| Rejected (err : Thrown).

(** What the [Response] constructor throws. *)
Inductive JsError := RangeError | TypeError.

(** The statuses of a response that has no body. *)
Definition is_null_body_status (s : Z) : bool :=
  (s =? 101) || (s =? 103) || (s =? 204) || (s =? 205) || (s =? 304).

(** [new Response(text, { status, headers })] for a body that is a string:
    a status outside 200..599 is a [RangeError], and a body together with
    a null-body status a [TypeError]. *)
Definition new_Response (text : jsstring) (status : Z)
    (headers : gmap string jsstring) : Response + JsError :=
  if (status <? 200) || (599 <? status) then inr RangeError
  else if is_null_body_status status then inr TypeError
  else inl {| status := status; res_headers := headers; res_body := text |}.

(** [res.headers.get("content-type") || "application/json"]. *)
Definition content_type_or_json (res : Response) : jsstring :=
  match res_headers res !! "content-type" with
  | Some v => if truthy v then v else js "application/json"
  | None => js "application/json"
  end.

Definition proxyJsonResponse (res : Response) : Response + JsError :=
  let text := res_body res in
  let headers : gmap string jsstring :=
    {[ "content-type" := content_type_or_json res ]} in
  new_Response text (status res) headers.

Section Forward.

(** The parts of the platform that are not modelled: the [URL] class,
    [FormData] objects and the decimal rendering of a Number. *)
Variable URL : Type.
Variable new_URL : jsstring -> jsstring -> URL.
Variable searchParams_set : jsstring -> jsstring -> URL -> URL.
Variable URL_toString : URL -> jsstring.
Variable FormData : Type.
Variable Number_toString : number -> jsstring.

(** [process.env.NEXT_PUBLIC_API_BASE_URL || "http://localhost:8000"]. *)
Definition API_BASE_URL (env : option jsstring) : jsstring :=
  match env with
  | Some v => if truthy v then v else js "http://localhost:8000"
  | None => js "http://localhost:8000"
  end.

(** [String(value)] for a query value that is set. *)
Definition String_of (v : QueryValue) : jsstring :=
  match v with
  | QString s => s
  | QNumber n => Number_toString n
  | QBoolean true => js "true"
  | QBoolean false => js "false"
  | QUndefined => js "undefined"
  | QNull => js "null"
  end.

(** The test [value === undefined || value === null || value === ""]. *)
Definition is_unset (v : QueryValue) : bool :=
  match v with
  | QUndefined | QNull | QString [] => true
  | _ => false
  end.

Definition buildUrl (env : option jsstring) (path : jsstring)
    (query : option QueryParams) : jsstring :=
  let url := new_URL path (API_BASE_URL env) in
  let url :=
    match query with
    | Some entries =>
        fold_left
          (fun url '(key, value) =>
             if is_unset value then url
             else searchParams_set key (String_of value) url)
          entries url
    | None => url
    end in
  URL_toString url.

(** JSON text. [QuoteJSONString] escapes the quote, the backslash and
    the control characters; a lone surrogate is written as an escape
    and a surrogate pair is kept. *)
Definition hex_digit (d : Z) : code_unit :=
  Z.to_N (if d <? 10 then 48 + d else 87 + d).

Definition unicode_escape (c : code_unit) : jsstring :=
  let z := Z.of_N c in
  [92%N; 117%N; hex_digit (z / 4096 mod 16); hex_digit (z / 256 mod 16);
   hex_digit (z / 16 mod 16); hex_digit (z mod 16)].

Definition is_leading_surrogate (c : code_unit) : bool :=
  (55296 <=? Z.of_N c) && (Z.of_N c <=? 56319).
Definition is_trailing_surrogate (c : code_unit) : bool :=
  (56320 <=? Z.of_N c) && (Z.of_N c <=? 57343).

Definition quote_unit (c : code_unit) : jsstring :=
  let z := Z.of_N c in
  if z =? 8 then [92%N; 98%N]
  else if z =? 9 then [92%N; 116%N]
  else if z =? 10 then [92%N; 110%N]
  else if z =? 12 then [92%N; 102%N]
  else if z =? 13 then [92%N; 114%N]
  else if z =? 34 then [92%N; 34%N]
  else if z =? 92 then [92%N; 92%N]
  else if z <? 32 then unicode_escape c
  else [c].

Fixpoint quote_units (s : jsstring) : jsstring :=
  match s with
  | [] => []
  | c :: r =>
      if is_leading_surrogate c then
        match r with
        | c' :: r' =>
            if is_trailing_surrogate c' then c :: c' :: quote_units r'
            else unicode_escape c ++ quote_units r
        | [] => unicode_escape c
        end
      else if is_trailing_surrogate c then unicode_escape c ++ quote_units r
      else quote_unit c ++ quote_units r
  end.

Definition QuoteJSONString (s : jsstring) : jsstring :=
  34%N :: quote_units s ++ [34%N].

(** The elements of a list joined by commas. *)
Fixpoint join_comma (parts : list jsstring) : jsstring :=
  match parts with
  | [] => []
  | [p] => p
  | p :: rest => p ++ 44%N :: join_comma rest
  end.

(** [JSON.stringify] of a JSON value, without indentation. *)
Fixpoint JSON_stringify (v : json) : jsstring :=
  match v with
  | JNull => js "null"
  | JBool true => js "true"
  | JBool false => js "false"
  | JNumber n => if isFinite n then Number_toString n else js "null"
  | JString s => QuoteJSONString s
  | JArray items =>
      91%N :: join_comma (List.map JSON_stringify items) ++ [93%N]
  | JObject fields =>
      123%N ::
        join_comma
          (List.map
             (fun kv => QuoteJSONString (fst kv) ++ 58%N :: JSON_stringify (snd kv))
             fields) ++ [125%N]
  end.

(** The [body] option of a forwarded request. *)
Inductive BodyArg :=
| BodyFormData (fd : FormData)
| BodyString (s : jsstring)
| BodyValue (v : json).

Inductive InitBody :=
| SendFormData (fd : FormData)
| SendText (s : jsstring).

Record ForwardOptions := {
  path : jsstring;
  method : option jsstring;
  token : option jsstring;
  query : option QueryParams;
  body : option BodyArg;
  headers : option (gmap string jsstring)
}.

Record RequestInit := {
  init_method : jsstring;
  init_headers : gmap string jsstring;
  init_cache : string;
  init_body : option InitBody
}.

(** A computation that may call [fetch]. *)
Inductive io (A : Type) : Type :=
| Ret (a : A)
| Fetch (url : jsstring) (init : RequestInit) (k : FetchOutcome -> io A).
Arguments Ret {A} a.
Arguments Fetch {A} url init k.

(** The request [forwardRequest] builds before it calls [fetch]. *)
Definition build_init (options : ForwardOptions) : RequestInit :=
  let hs : gmap string jsstring :=
    match headers options with
    | Some h => h ∪ {[ "Accept" := js "application/json" ]}
    | None => {[ "Accept" := js "application/json" ]}
    end in
  let hs :=
    match token options with
    | Some t =>
        if truthy t then <["Authorization" := js "Bearer " ++ t]> hs else hs
    | None => hs
    end in
  let '(hs, b) :=
    match body options with
    | None => (hs, None)
    | Some (BodyFormData fd) => (hs, Some (SendFormData fd))
    | Some (BodyString s) => (hs, Some (SendText s))
    | Some (BodyValue v) =>
        (<["Content-Type" := js "application/json"]> hs,
         Some (SendText (JSON_stringify v)))
    end in
  {| init_method := default (js "GET") (method options);
     init_headers := hs;
     init_cache := "no-store";
     init_body := b |}.

(** The response made when [fetch] throws. *)
Definition unreachable_response (err : Thrown) : Response :=
  let message :=
    match err with
    | ThrownError m => m
    | ThrownOther => js "Unable to reach backend."
    end in
  {| status := 502;
     res_headers := {[ "content-type" := js "application/json" ]};
     res_body :=
       JSON_stringify
         (JObject
            [(js "error",
              JObject [(js "code", JString (js "BACKEND_UNREACHABLE"));
                       (js "message", JString message)])]) |}.

Definition forwardRequest (env : option jsstring) (options : ForwardOptions)
  : io Response :=
  let url := buildUrl env (path options) (query options) in
  let init := build_init options in
  Fetch url init
    (fun outcome =>
       match outcome with
       | Fulfilled res => Ret res
       | Rejected err => Ret (unreachable_response err)
       end).

(** Running a computation against a network: the [n]-th call of [fetch]
    is answered by [net n]. The calls made are returned, oldest first. *)
Definition Network := nat -> jsstring -> RequestInit -> FetchOutcome.

Fixpoint run {A} (net : Network) (n : nat) (p : io A)
  : A * list (jsstring * RequestInit) :=
  match p with
  | Ret a => (a, [])
  | Fetch url init k =>
      let '(a, calls) := run net (S n) (k (net n url init)) in
      (a, (url, init) :: calls)
  end.

(** Sequencing of computations. *)
Fixpoint bind {A B} (p : io A) (k : A -> io B) : io B :=
  match p with
  | Ret a => k a
  | Fetch url init c => Fetch url init (fun outcome => bind (c outcome) k)
  end.

(** [NextResponse.json(data, { status })]. *)
Definition NextResponse_json (data : json) (status : Z) : Response :=
  {| status := status;
     res_headers := {[ "content-type" := js "application/json" ]};
     res_body := JSON_stringify data |}.

End Forward.

Arguments path {FormData} _.
Arguments method {FormData} _.
Arguments token {FormData} _.
Arguments query {FormData} _.
Arguments body {FormData} _.
Arguments headers {FormData} _.
Arguments init_method {FormData} _.
Arguments init_headers {FormData} _.
Arguments init_cache {FormData} _.
Arguments init_body {FormData} _.
Arguments Ret {FormData A} a.
Arguments Fetch {FormData A} url init k.
Arguments run {FormData A} net n p.
Arguments bind {FormData A B} p k.

End Api.

(** ** The route handlers that forward to the back end

    [app/api/admin/summary/route.ts] and [app/api/tasks/[sno]/route.ts]. *)

Module Routes.

Import Api.

Section Handlers.

Variable URL : Type.
Variable new_URL : jsstring -> jsstring -> URL.
Variable searchParams_set : jsstring -> jsstring -> URL -> URL.
Variable URL_toString : URL -> jsstring.
Variable FormData : Type.
Variable Number_toString : number -> jsstring.
Variable encodeURIComponent : jsstring -> jsstring.

(** [cookieStore.get(name)?.value] seen as a condition. *)
Definition cookie_set (c : option jsstring) : bool :=
  match c with Some v => truthy v | None => false end.

Definition not_authenticated : Response :=
  NextResponse_json Number_toString
    (JObject
       [(js "error",
         JObject [(js "code", JString (js "NOT_AUTHORIZED"));
                  (js "message", JString (js "Not authenticated."))])])
    401.

(** [GET /api/admin/summary]. [query] holds the entries of the object
    filled from the search parameters of the request. *)
Definition summary_GET (env : option jsstring) (token : option jsstring)
    (query : list (jsstring * jsstring)) : io FormData (Response + JsError) :=
  if negb (cookie_set token) then Ret (inl not_authenticated)
  else
    bind
      (forwardRequest URL new_URL searchParams_set URL_toString FormData
         Number_toString env
         {| path := js "/admin/summary";
            method := Some (js "GET");
            token := token;
            query := Some (List.map (fun kv => (fst kv, QString (snd kv))) query);
            body := None;
            headers := None |})
      (fun response => Ret (proxyJsonResponse response)).

(** [PATCH /api/tasks/[sno]]. [payload] is the parsed body of the request,
    [null] when it is no JSON. *)
Definition task_PATCH (env : option jsstring) (token : option jsstring)
    (sno : jsstring) (payload : json) : io FormData (Response + JsError) :=
  if negb (cookie_set token) then Ret (inl not_authenticated)
  else
    bind
      (forwardRequest URL new_URL searchParams_set URL_toString FormData
         Number_toString env
         {| path := js "/tasks/" ++ encodeURIComponent sno;
            method := Some (js "PATCH");
            token := token;
            query := None;
            body := Some (BodyValue FormData payload);
            headers := None |})
      (fun response => Ret (proxyJsonResponse response)).

(** [DELETE /api/tasks/[sno]]. *)
Definition task_DELETE (env : option jsstring) (token : option jsstring)
    (sno : jsstring) : io FormData (Response + JsError) :=
  if negb (cookie_set token) then Ret (inl not_authenticated)
  else
    bind
      (forwardRequest URL new_URL searchParams_set URL_toString FormData
         Number_toString env
         {| path := js "/tasks/" ++ encodeURIComponent sno;
            method := Some (js "DELETE");
            token := token;
            query := None;
            body := None;
            headers := None |})
      (fun response => Ret (proxyJsonResponse response)).

End Handlers.

End Routes.

(** ** [middleware.ts]: the routing guard *)

Module Middleware.

(** [s.startsWith(prefix)]. *)
Fixpoint startsWith (prefix s : jsstring) : bool :=
  match prefix, s with
  | [], _ => true
  | a :: p, b :: r => (a =? b)%N && startsWith p r
  | _ :: _, [] => false
  end.

(** The value of a cookie seen as a condition: set and not empty. *)
Definition present (c : option jsstring) : bool :=
  match c with Some v => truthy v | None => false end.

(** [role === "admin"]. *)
Definition is_admin (role : option jsstring) : bool :=
  match role with Some r => JsString.eqb r (js "admin") | None => false end.

(** The response of the middleware: the request goes on, or the browser is
    sent to a path of the same origin. *)
Inductive Outcome :=
| Next
| Redirect (target : jsstring).

Definition middleware (pathname : jsstring) (token role : option jsstring)
  : Outcome :=
  if startsWith (js "/login") pathname then
    if present token && present role then
      Redirect (if is_admin role then js "/admin/tasks" else js "/user/new-task")
    else Next
  else if JsString.eqb pathname (js "/") then
    if negb (present token) || negb (present role) then Redirect (js "/login")
    else Redirect (if is_admin role then js "/admin/tasks" else js "/user/new-task")
  else
    let admin_guard :=
      if startsWith (js "/admin") pathname then
        if negb (present token) || negb (present role)
        then Some (Redirect (js "/login"))
        else if negb (is_admin role) then Some (Redirect (js "/user/new-task"))
        else None
      else None in
    match admin_guard with
    | Some response => response
    | None =>
        if startsWith (js "/user") pathname then
          if negb (present token) || negb (present role)
          then Redirect (js "/login")
          else Next
        else Next
    end.

End Middleware.

(** ** [lib/auth.ts] and the home page: the page guards *)

Module Auth.

Record AuthInfo := {
  token : option jsstring;
  role : option jsstring;
  username : option jsstring
}.

(** A guard returns, or [redirect] ends the rendering. *)
Inductive Guarded (A : Type) :=
| Returned (a : A)
| Redirected (target : jsstring).
Arguments Returned {A} a.
Arguments Redirected {A} target.

(** [allowedRoles.includes(role)]. *)
Definition includes (roles : list jsstring) (role : jsstring) : bool :=
  existsb (JsString.eqb role) roles.

(** [requireAuth(allowedRoles)] on the cookies that [getAuth] read. *)
Definition requireAuth (auth : AuthInfo) (allowedRoles : option (list jsstring))
  : Guarded AuthInfo :=
  match token auth, role auth with
  | Some t, Some r =>
      if negb (truthy t) || negb (truthy r) then Redirected (js "/login")
      else
        match allowedRoles with
        | Some roles =>
            if negb (includes roles r) then
              if JsString.eqb r (js "admin") then Redirected (js "/admin/tasks")
              else Redirected (js "/user/new-task")
            else Returned auth
        | None => Returned auth
        end
  | _, _ => Redirected (js "/login")
  end.

(** The home page: it always redirects. *)
Definition Home (auth : AuthInfo) : jsstring :=
  match token auth, role auth with
  | Some t, Some r =>
      if negb (truthy t) || negb (truthy r) then js "/login"
      else if JsString.eqb r (js "admin") then js "/admin/tasks"
      else js "/user/new-task"
  | _, _ => js "/login"
  end.

(** The guard of the pages under [/admin]: [requireAuth(["admin"])]. *)
Definition AdminPage (auth : AuthInfo) : Guarded AuthInfo :=
  requireAuth auth (Some [js "admin"]).

(** The guard of [/user/new-task] and [/user/tasks]:
    [requireAuth(["user", "admin"])]. *)
Definition UserPage (auth : AuthInfo) : Guarded AuthInfo :=
  requireAuth auth (Some [js "user"; js "admin"]).

End Auth.

(** ** The reporting engine of the back end *)

Module Query.

Inductive AccountCode := Spill | New.

Definition AccountCode_eqb (a b : AccountCode) : bool :=
  match a, b with
  | Spill, Spill | New, New => true
  | _, _ => false
  end.

(** Modelled from the spec: a timestamp, as a day number and the time of
    day in microseconds; the Python back end that stores [created_at] is
    not among the sources. *)
Record DateTime := {
  day : Z;
  time_of_day : Z
}.

Definition ticks_per_day : Z := 86400000000.

Definition well_formed_time (t : DateTime) : Prop :=
  0 <= time_of_day t < ticks_per_day.

Definition DateTime_leb (a b : DateTime) : bool :=
  (day a <? day b) || ((day a =? day b) && (time_of_day a <=? time_of_day b)).

(** Modelled from the spec: the number of days from 1970-01-01 to a date
    of the proleptic Gregorian calendar; the back end's date parsing is
    not among the sources. *)
Definition days_from_civil (y m d : Z) : Z :=
  let y' := if m <=? 2 then y - 1 else y in
  let era := y' / 400 in
  let yoe := y' - era * 400 in
  let mp := (m + 9) mod 12 in
  let doy := (153 * mp + 2) / 5 + d - 1 in
  let doe := yoe * 365 + yoe / 4 - yoe / 100 + doy in
  era * 146097 + doe - 719468.

(** Modelled from the spec: a task record of section 3; the back end's
    record type is not among the sources. Integer fields are integers and
    decimal fields exact rationals. *)
Record TaskRecord := {
  sno : Z;
  sub_division : string;
  account_code : AccountCode;
  number_of_works : Z;
  estimate_amount : Q;
  agreement_amount : Q;
  exp_upto_31_03_2025 : Q;
  balance_amount_as_on_01_04_2025 : Q;
  exp_upto_last_month : Q;
  exp_during_this_month : Q;
  total_exp_during_year : Q;
  total_value_work_done_from_beginning : Q;
  works_completed : Z;
  balance_works : Z;
  created_by : string;
  created_at : DateTime
}.

(** Modelled from the spec: a date bound of a filter, [a date or a
    date-time]; the back end's filter is not among the sources. *)
Inductive DateBound :=
| BareDate (d : Z)
| AtTime (t : DateTime).

(** A bare date as a lower bound is the start of that day. *)
Definition lower_bound (b : DateBound) : DateTime :=
  match b with
  | BareDate d => {| day := d; time_of_day := 0 |}
  | AtTime t => t
  end.

(** A bare date as an upper bound is the end of that day. *)
Definition upper_bound (b : DateBound) : DateTime :=
  match b with
  | BareDate d => {| day := d; time_of_day := ticks_per_day - 1 |}
  | AtTime t => t
  end.

Record Filter := {
  f_sub_division : option string;
  f_account_code : option AccountCode;
  f_date_from : option DateBound;
  f_date_to : option DateBound
}.

Definition no_filter : Filter := {|
  f_sub_division := None; f_account_code := None;
  f_date_from := None; f_date_to := None
|}.

(** Modelled from the spec: case-insensitive comparison folds the ASCII
    letters; the back end's matching code is not among the sources. *)
Definition lower_ascii (a : ascii) : ascii :=
  let n := nat_of_ascii a in
  if ((65 <=? n) && (n <=? 90))%nat then ascii_of_nat (n + 32) else a.

Fixpoint lower (s : string) : string :=
  match s with
  | EmptyString => EmptyString
  | String a r => String (lower_ascii a) (lower r)
  end.

Fixpoint is_prefix (p s : string) : bool :=
  match p, s with
  | EmptyString, _ => true
  | String a p', String b s' => Ascii.eqb a b && is_prefix p' s'
  | String _ _, EmptyString => false
  end.

Fixpoint contains (needle hay : string) : bool :=
  is_prefix needle hay ||
  match hay with
  | EmptyString => false
  | String _ r => contains needle r
  end.

(** Modelled from the spec: the filter of section 4.2, every criterion
    optional, all combined by conjunction. *)
Definition passes (flt : Filter) (r : TaskRecord) : bool :=
  match f_sub_division flt with
  | Some s => contains (lower s) (lower (sub_division r))
  | None => true
  end &&
  match f_account_code flt with
  | Some c => AccountCode_eqb c (account_code r)
  | None => true
  end &&
  match f_date_from flt with
  | Some b => DateTime_leb (lower_bound b) (created_at r)
  | None => true
  end &&
  match f_date_to flt with
  | Some b => DateTime_leb (created_at r) (upper_bound b)
  | None => true
  end.

(** The numeric fields that are summed. *)
Record Totals := {
  t_number_of_works : Z;
  t_estimate_amount : Q;
  t_agreement_amount : Q;
  t_exp_upto_31_03_2025 : Q;
  t_balance_amount_as_on_01_04_2025 : Q;
  t_exp_upto_last_month : Q;
  t_exp_during_this_month : Q;
  t_total_exp_during_year : Q;
  t_total_value_work_done_from_beginning : Q;
  t_works_completed : Z;
  t_balance_works : Z
}.

Definition zero_totals : Totals := {|
  t_number_of_works := 0;
  t_estimate_amount := 0%Q;
  t_agreement_amount := 0%Q;
  t_exp_upto_31_03_2025 := 0%Q;
  t_balance_amount_as_on_01_04_2025 := 0%Q;
  t_exp_upto_last_month := 0%Q;
  t_exp_during_this_month := 0%Q;
  t_total_exp_during_year := 0%Q;
  t_total_value_work_done_from_beginning := 0%Q;
  t_works_completed := 0;
  t_balance_works := 0
|}.

Definition add_record (t : Totals) (r : TaskRecord) : Totals := {|
  t_number_of_works := t_number_of_works t + number_of_works r;
  t_estimate_amount := (t_estimate_amount t + estimate_amount r)%Q;
  t_agreement_amount := (t_agreement_amount t + agreement_amount r)%Q;
  t_exp_upto_31_03_2025 := (t_exp_upto_31_03_2025 t + exp_upto_31_03_2025 r)%Q;
  t_balance_amount_as_on_01_04_2025 :=
    (t_balance_amount_as_on_01_04_2025 t + balance_amount_as_on_01_04_2025 r)%Q;
  t_exp_upto_last_month := (t_exp_upto_last_month t + exp_upto_last_month r)%Q;
  t_exp_during_this_month :=
    (t_exp_during_this_month t + exp_during_this_month r)%Q;
  t_total_exp_during_year :=
    (t_total_exp_during_year t + total_exp_during_year r)%Q;
  t_total_value_work_done_from_beginning :=
    (t_total_value_work_done_from_beginning t
     + total_value_work_done_from_beginning r)%Q;
  t_works_completed := t_works_completed t + works_completed r;
  t_balance_works := t_balance_works t + balance_works r
|}.

Record AccountGroup := {
  g_account_code : AccountCode;
  g_account_totals : Totals
}.

Record SubDivisionGroup := {
  g_sub_division : string;
  g_totals : Totals;
  by_account_code : list AccountGroup
}.

Record Summary := {
  grand_totals : Totals;
  by_sub_division : list SubDivisionGroup
}.

(** Adding a record to the account-code groups of a sub-division: the
    group with exactly that code, or a new one at the end. *)
Fixpoint add_to_accounts (r : TaskRecord) (gs : list AccountGroup)
  : list AccountGroup :=
  match gs with
  | [] => [{| g_account_code := account_code r;
              g_account_totals := add_record zero_totals r |}]
  | g :: rest =>
      if AccountCode_eqb (g_account_code g) (account_code r)
      then {| g_account_code := g_account_code g;
              g_account_totals := add_record (g_account_totals g) r |} :: rest
      else g :: add_to_accounts r rest
  end.

(** Adding a record to the sub-division groups: the group whose key is
    exactly the record's [sub_division] string, or a new one at the end. *)
Fixpoint add_to_groups (r : TaskRecord) (gs : list SubDivisionGroup)
  : list SubDivisionGroup :=
  match gs with
  | [] => [{| g_sub_division := sub_division r;
              g_totals := add_record zero_totals r;
              by_account_code := add_to_accounts r [] |}]
  | g :: rest =>
      if String.eqb (g_sub_division g) (sub_division r)
      then {| g_sub_division := g_sub_division g;
              g_totals := add_record (g_totals g) r;
              by_account_code := add_to_accounts r (by_account_code g) |} :: rest
      else g :: add_to_groups r rest
  end.

(** Modelled from the spec: [summarize] of section 4.2, filter, then
    group, then sum; the back end's implementation is not among the
    sources. *)
Definition summarize (records : list TaskRecord) (flt : Filter) : Summary :=
  fold_left
    (fun acc r =>
       if passes flt r
       then {| grand_totals := add_record (grand_totals acc) r;
               by_sub_division := add_to_groups r (by_sub_division acc) |}
       else acc)
    records
    {| grand_totals := zero_totals; by_sub_division := [] |}.

(** Modelled from the spec: the sort key of a record for a field name,
    [sno] for an unknown name. *)
Inductive SortKey :=
| KInt (z : Z)
| KDec (q : Q)
| KText (s : string)
| KCode (c : AccountCode)
| KTime (t : DateTime).

Definition sort_key (sort_by : string) (r : TaskRecord) : SortKey :=
  if String.eqb sort_by "sub_division" then KText (sub_division r)
  else if String.eqb sort_by "account_code" then KCode (account_code r)
  else if String.eqb sort_by "number_of_works" then KInt (number_of_works r)
  else if String.eqb sort_by "estimate_amount" then KDec (estimate_amount r)
  else if String.eqb sort_by "agreement_amount" then KDec (agreement_amount r)
  else if String.eqb sort_by "exp_upto_31_03_2025" then KDec (exp_upto_31_03_2025 r)
  else if String.eqb sort_by "balance_amount_as_on_01_04_2025"
    then KDec (balance_amount_as_on_01_04_2025 r)
  else if String.eqb sort_by "exp_upto_last_month" then KDec (exp_upto_last_month r)
  else if String.eqb sort_by "exp_during_this_month"
    then KDec (exp_during_this_month r)
  else if String.eqb sort_by "total_exp_during_year"
    then KDec (total_exp_during_year r)
  else if String.eqb sort_by "total_value_work_done_from_beginning"
    then KDec (total_value_work_done_from_beginning r)
  else if String.eqb sort_by "works_completed" then KInt (works_completed r)
  else if String.eqb sort_by "balance_works" then KInt (balance_works r)
  else if String.eqb sort_by "created_by" then KText (created_by r)
  else if String.eqb sort_by "created_at" then KTime (created_at r)
  else KInt (sno r).

Definition SortKey_leb (a b : SortKey) : bool :=
  match a, b with
  | KInt x, KInt y => x <=? y
  | KDec x, KDec y => Qle_bool x y
  | KText x, KText y => String.leb x y
  | KCode x, KCode y =>
      match x, y with New, Spill => true | _, _ => AccountCode_eqb x y end
  | KTime x, KTime y => DateTime_leb x y
  | _, _ => true
  end.

Inductive Order := Asc | Desc.

(** [a] may stay before [b] in the chosen order. *)
Definition in_order (sort_by : string) (order : Order) (a b : TaskRecord) : bool :=
  match order with
  | Asc => SortKey_leb (sort_key sort_by a) (sort_key sort_by b)
  | Desc => SortKey_leb (sort_key sort_by b) (sort_key sort_by a)
  end.

(** A stable insertion sort: a record is placed after the records it
    compares equal to. *)
Fixpoint insert_sorted (le : TaskRecord -> TaskRecord -> bool)
    (r : TaskRecord) (rs : list TaskRecord) : list TaskRecord :=
  match rs with
  | [] => [r]
  | x :: rest => if le x r then x :: insert_sorted le r rest else r :: rs
  end.

Definition sort_records (le : TaskRecord -> TaskRecord -> bool)
    (rs : list TaskRecord) : list TaskRecord :=
  fold_left (fun acc r => insert_sorted le r acc) rs [].

Record Page := {
  items : list TaskRecord;
  page : Z;
  page_size : Z;
  total_items : Z;
  total_pages : Z
}.

(** Modelled from the spec: [page_size] is kept within [1..500]. *)
Definition clamp_page_size (n : Z) : Z := Z.max 1 (Z.min 500 n).

(** Modelled from the spec: [list] of section 4.2, filter, then sort,
    then paginate; the back end's implementation is not among the
    sources. The function is [list] in the spec. *)
Definition list_tasks (records : list TaskRecord) (flt : Filter)
    (sort_by : string) (order : Order) (pg pg_size : Z) : Page :=
  let size := clamp_page_size pg_size in
  let matching := List.filter (passes flt) records in
  let sorted := sort_records (in_order sort_by order) matching in
  let total := Z.of_nat (length sorted) in
  let pages := Z.max 1 ((total + size - 1) / size) in
  let start := (pg - 1) * size in
  {| items := take (Z.to_nat size) (drop (Z.to_nat start) sorted);
     page := pg;
     page_size := size;
     total_items := total;
     total_pages := pages |}.

End Query.

(** ** Vocabulary of the statements *)

(** The Number a field is read as, before the checks. *)
Definition parsed_as (t : number_type) (trimmed : jsstring) : number :=
  match t with
  | TInt => parseInt10 trimmed
  | TFloat => Number trimmed
  end.

Definition parse_message (t : number_type) : string :=
  match t with
  | TInt => "Enter a whole number."
  | TFloat => "Enter a valid number."
  end.

(** The four outcomes of [parseNumber], by the first check that fails. *)
Inductive parse_outcome (v : jsstring) (t : number_type) : parse_result -> Prop :=
| Outcome_required :
    trim v = [] ->
    parse_outcome v t {| value := None; error := "Required." |}
| Outcome_unparsable :
    trim v <> [] -> isNaN (parsed_as t (trim v)) = true ->
    parse_outcome v t {| value := None; error := parse_message t |}
| Outcome_negative :
    trim v <> [] -> isNaN (parsed_as t (trim v)) = false ->
    lt (parsed_as t (trim v)) pos_zero = true ->
    parse_outcome v t {| value := None; error := "Must be non-negative." |}
| Outcome_accepted :
    trim v <> [] -> isNaN (parsed_as t (trim v)) = false ->
    lt (parsed_as t (trim v)) pos_zero = false ->
    parse_outcome v t
      {| value := Some (parsed_as t (trim v)); error := EmptyString |}.

(** The numeric fields with the type each is read at, in the order
    [validate] visits them. *)
Definition numeric_fields : list (string * number_type) :=
  List.map (fun f => (f, TInt)) intFields ++
  List.map (fun f => (f, TFloat)) floatFields.

(** The form of the end-to-end scenario of the specification. *)
Definition scenario_form : FormState := {|
  Form.sub_division := js "RKV SubDiv-1";
  Form.account_code := js "New";
  Form.number_of_works := js "10";
  Form.estimate_amount := js "1000";
  Form.agreement_amount := js "900";
  Form.exp_upto_31_03_2025 := js "400";
  Form.exp_upto_last_month := js "100";
  Form.exp_during_this_month := js "50";
  Form.works_completed := js "4"
|}.

(** The scenario with two negative amounts. *)
Definition two_negatives_form : FormState := {|
  Form.sub_division := js "RKV SubDiv-1";
  Form.account_code := js "New";
  Form.number_of_works := js "10";
  Form.estimate_amount := js "-1";
  Form.agreement_amount := js "-2";
  Form.exp_upto_31_03_2025 := js "400";
  Form.exp_upto_last_month := js "100";
  Form.exp_during_this_month := js "50";
  Form.works_completed := js "4"
|}.

(** The scenario with a negative number of works. *)
Definition negative_works_form : FormState := {|
  Form.sub_division := js "RKV SubDiv-1";
  Form.account_code := js "New";
  Form.number_of_works := js "-5";
  Form.estimate_amount := js "1000";
  Form.agreement_amount := js "900";
  Form.exp_upto_31_03_2025 := js "400";
  Form.exp_upto_last_month := js "100";
  Form.exp_during_this_month := js "50";
  Form.works_completed := js "3"
|}.

(** The scenario with more works completed than works. *)
Definition too_many_completed_form : FormState := {|
  Form.sub_division := js "RKV SubDiv-1";
  Form.account_code := js "New";
  Form.number_of_works := js "10";
  Form.estimate_amount := js "1000";
  Form.agreement_amount := js "900";
  Form.exp_upto_31_03_2025 := js "400";
  Form.exp_upto_last_month := js "100";
  Form.exp_during_this_month := js "50";
  Form.works_completed := js "11"
|}.

(** The scenario with an expenditure above the agreement amount. *)
Definition overspent_form : FormState := {|
  Form.sub_division := js "RKV SubDiv-1";
  Form.account_code := js "New";
  Form.number_of_works := js "10";
  Form.estimate_amount := js "1000";
  Form.agreement_amount := js "900";
  Form.exp_upto_31_03_2025 := js "900.5";
  Form.exp_upto_last_month := js "100";
  Form.exp_during_this_month := js "50";
  Form.works_completed := js "4"
|}.

(** The scenario with a fractional number of works completed. *)
Definition fractional_form : FormState := {|
  Form.sub_division := js "RKV SubDiv-1";
  Form.account_code := js "New";
  Form.number_of_works := js "5";
  Form.estimate_amount := js "1000";
  Form.agreement_amount := js "900";
  Form.exp_upto_31_03_2025 := js "400";
  Form.exp_upto_last_month := js "100";
  Form.exp_during_this_month := js "50";
  Form.works_completed := js "5.9"
|}.

(** The scenario with two expenditures whose sum is beyond the largest
    Number. *)
Definition overflow_form : FormState := {|
  Form.sub_division := js "RKV SubDiv-1";
  Form.account_code := js "New";
  Form.number_of_works := js "10";
  Form.estimate_amount := js "1000";
  Form.agreement_amount := js "900";
  Form.exp_upto_31_03_2025 := js "400";
  Form.exp_upto_last_month := js "1e308";
  Form.exp_during_this_month := js "1e308";
  Form.works_completed := js "4"
|}.

(** A page state with nothing typed in the free-text sub-division. *)
Definition page_state (form : FormState) : NewTask.State :=
  {| NewTask.form := form; NewTask.otherSubdivision := [] |}.

(** An ASCII literal between double quotes, as JSON text. *)
Definition quoted (s : string) : jsstring := 34%N :: js s ++ [34%N].

(** The message [forwardRequest] reports for what [fetch] threw. *)
Definition unreachable_message (err : Api.Thrown) : jsstring :=
  match err with
  | Api.ThrownError m => m
  | Api.ThrownOther => js "Unable to reach backend."
  end.

(** The totals of the first sub-division group with the given key. *)
Fixpoint group_totals (key : string) (gs : list Query.SubDivisionGroup)
  : option Query.Totals :=
  match gs with
  | [] => None
  | g :: rest =>
      if String.eqb (Query.g_sub_division g) key then Some (Query.g_totals g)
      else group_totals key rest
  end.

(** The totals of a list of records, summed from the first to the last. *)
Definition totals_of (rs : list Query.TaskRecord) : Query.Totals :=
  fold_left Query.add_record rs Query.zero_totals.

(** The sum of an integer field over a list of records. *)
Definition sum_of (field : Query.TaskRecord -> Z) (rs : list Query.TaskRecord) : Z :=
  fold_left (fun acc r => acc + field r) rs 0.

(** The records that pass the filter and carry exactly the given
    sub-division string. *)
Definition passing_in (flt : Query.Filter) (key : string)
    (rs : list Query.TaskRecord) : list Query.TaskRecord :=
  List.filter (fun r => Query.passes flt r && String.eqb (Query.sub_division r) key)
    rs.

(** The sum of a decimal field over a list of records. *)
Definition sum_of_Q (field : Query.TaskRecord -> Q) (rs : list Query.TaskRecord) : Q :=
  fold_left (fun acc r => (acc + field r)%Q) rs 0%Q.

(** A filter on the dates alone. *)
Definition date_filter (from to : option Query.DateBound) : Query.Filter :=
  {| Query.f_sub_division := None; Query.f_account_code := None;
     Query.f_date_from := from; Query.f_date_to := to |}.

(** A filter on the sub-division alone. *)
Definition sub_division_filter (s : string) : Query.Filter :=
  {| Query.f_sub_division := Some s; Query.f_account_code := None;
     Query.f_date_from := None; Query.f_date_to := None |}.

(** A record of the sub-division [North Zone], created on 2025-06-30 at
    noon. *)
Definition north_record : Query.TaskRecord := {|
  Query.sno := 1;
  Query.sub_division := "North Zone";
  Query.account_code := Query.New;
  Query.number_of_works := 10;
  Query.estimate_amount := 1000;
  Query.agreement_amount := 900;
  Query.exp_upto_31_03_2025 := 400;
  Query.balance_amount_as_on_01_04_2025 := 500;
  Query.exp_upto_last_month := 100;
  Query.exp_during_this_month := 50;
  Query.total_exp_during_year := 150;
  Query.total_value_work_done_from_beginning := 550;
  Query.works_completed := 4;
  Query.balance_works := 6;
  Query.created_by := "clerk";
  Query.created_at :=
    {| Query.day := Query.days_from_civil 2025 6 30;
       Query.time_of_day := 43200000000 |}
|}.

(** The rules of [validate] as one test: the sub-division is not blank, the
    account code is [Spill] or [New], every numeric field passes its own
    check, the works completed do not exceed the works and the expenditure
    up to 31-03-2025 does not exceed the agreement amount. *)
Definition accepts (st : NewTask.State) : bool :=
  let f := NewTask.form st in
  truthy (NewTask.resolvedSubdivision st) &&
  is_account_code (Form.account_code f) &&
  forallb (fun ft => negb (has_error (NewTask.parseNumber (Form.get f (fst ft)) (snd ft))))
    numeric_fields &&
  negb (both (fun works completed => gt completed works)
          (value (NewTask.parseNumber (Form.number_of_works f) TInt))
          (value (NewTask.parseNumber (Form.works_completed f) TInt))) &&
  negb (both (fun agreement exp31 => lt agreement exp31)
          (value (NewTask.parseNumber (Form.agreement_amount f) TFloat))
          (value (NewTask.parseNumber (Form.exp_upto_31_03_2025 f) TFloat))).

(** The names under which [validate] may record an error. *)
Definition field_names : list string :=
  [ "sub_division"; "account_code"; "number_of_works"; "works_completed";
    "estimate_amount"; "agreement_amount"; "exp_upto_31_03_2025";
    "exp_upto_last_month"; "exp_during_this_month" ]%string.

(** A stand-in for the platform in the examples: a URL is the path followed
    by the query entries set on it, and no Number or form data is sent. *)
Definition sample_new_URL (path base : jsstring) : jsstring := base ++ path.
Definition sample_set (key value : jsstring) (url : jsstring) : jsstring :=
  url ++ js "&" ++ key ++ js "=" ++ value.
Definition sample_toString (n : number) : jsstring := [].

Definition sample_options : Api.ForwardOptions Empty_set :=
  {| Api.path := js "/admin/summary"; Api.method := None;
     Api.token := Some (js "t0"); Api.query := None; Api.body := None;
     Api.headers := None |}.

(** A back end that answers every request with the given status and
    text. *)
Definition answering (status : Z) (text : jsstring)
  : Api.Network Empty_set :=
  fun _ _ _ =>
    Api.Fulfilled
      {| Api.status := status;
         Api.res_headers := {[ "content-type" := js "application/json" ]};
         Api.res_body := text |}.

(** A back end that cannot be reached. *)
Definition refusing : Api.Network Empty_set :=
  fun _ _ _ => Api.Rejected (Api.ThrownError (js "fetch failed")).

(** A page guard seen as a response of the middleware. *)
Definition guard_outcome {A} (g : Auth.Guarded A) : Middleware.Outcome :=
  match g with
  | Auth.Returned _ => Middleware.Next
  | Auth.Redirected target => Middleware.Redirect target
  end.

(** The code unit is a decimal digit. *)
Definition is_decimal_digit (c : code_unit) : bool :=
  match decimal_digit c with Some _ => true | None => false end.

(** The digit values of a string of decimal digits. *)
Definition digit_values (ds : jsstring) : list Z :=
  List.map (fun c => Z.of_N c - 48) ds.

(** * Properties *)

(** ** Numbers *)

Lemma not_lt_zero_le (x : number) :
  isNaN x = false -> lt x pos_zero = false -> le pos_zero x = true.
Proof.
  destruct x as [s | s | | s m e]; try destruct s; cbn; congruence.
Qed.

Lemma gt_lt (x y : number) : gt x y = lt y x.
Proof. reflexivity. Qed.

Lemma isFinite_not_NaN (x : number) : isFinite x = true -> isNaN x = false.
Proof. destruct x; cbn; congruence. Qed.

(** ** Strings *)

Lemma truthy_false (s : jsstring) : truthy s = false <-> s = [].
Proof. destruct s; cbn; split; congruence. Qed.

Lemma jsstring_eqb_eq (a b : jsstring) : JsString.eqb a b = true <-> a = b.
Proof. unfold JsString.eqb. destruct (decide (a = b)); split; congruence. Qed.

(** ** [parseNumber] *)

(** The two modules define the same function. *)
Lemma parseNumber_same (v : jsstring) (t : number_type) :
  EditModal.parseNumber v t = NewTask.parseNumber v t.
Proof. reflexivity. Qed.

Lemma parseNumber_required (v : jsstring) (t : number_type) :
  trim v = [] ->
  NewTask.parseNumber v t = {| value := None; error := "Required." |}.
Proof. intros H. unfold NewTask.parseNumber. rewrite H. reflexivity. Qed.

Lemma parseNumber_unparsable (v : jsstring) (t : number_type) :
  trim v <> [] -> isNaN (parsed_as t (trim v)) = true ->
  NewTask.parseNumber v t = {| value := None; error := parse_message t |}.
Proof.
  intros H1 H2. unfold NewTask.parseNumber.
  destruct (truthy (trim v)) eqn:E; [| apply truthy_false in E; contradiction].
  cbn [negb]. destruct t; cbn [parsed_as] in H2; rewrite H2; reflexivity.
Qed.

Lemma parseNumber_negative (v : jsstring) (t : number_type) :
  trim v <> [] -> isNaN (parsed_as t (trim v)) = false ->
  lt (parsed_as t (trim v)) pos_zero = true ->
  NewTask.parseNumber v t = {| value := None; error := "Must be non-negative." |}.
Proof.
  intros H1 H2 H3. unfold NewTask.parseNumber.
  destruct (truthy (trim v)) eqn:E; [| apply truthy_false in E; contradiction].
  cbn [negb]. destruct t; cbn [parsed_as] in H2, H3; rewrite H2, H3; reflexivity.
Qed.

Lemma parseNumber_accepted (v : jsstring) (t : number_type) :
  trim v <> [] -> isNaN (parsed_as t (trim v)) = false ->
  lt (parsed_as t (trim v)) pos_zero = false ->
  NewTask.parseNumber v t =
    {| value := Some (parsed_as t (trim v)); error := EmptyString |}.
Proof.
  intros H1 H2 H3. unfold NewTask.parseNumber.
  destruct (truthy (trim v)) eqn:E; [| apply truthy_false in E; contradiction].
  cbn [negb]. destruct t; cbn [parsed_as] in H2, H3; rewrite H2, H3; reflexivity.
Qed.

Lemma parseNumber_outcome (v : jsstring) (t : number_type) :
  parse_outcome v t (NewTask.parseNumber v t).
Proof.
  destruct (decide (trim v = [])) as [E | E].
  - rewrite parseNumber_required by assumption. now constructor.
  - destruct (isNaN (parsed_as t (trim v))) eqn:N.
    + rewrite parseNumber_unparsable by assumption. now constructor.
    + destruct (lt (parsed_as t (trim v)) pos_zero) eqn:L.
      * rewrite parseNumber_negative by assumption. now constructor.
      * rewrite parseNumber_accepted by assumption. now constructor.
Qed.

Lemma parse_message_nonempty (t : number_type) : parse_message t <> EmptyString.
Proof. destruct t; discriminate. Qed.

(** A result carries an error exactly when it carries no value. *)
Lemma parseNumber_error_iff_no_value (v : jsstring) (t : number_type) :
  has_error (NewTask.parseNumber v t) = true <->
  value (NewTask.parseNumber v t) = None.
Proof.
  destruct (parseNumber_outcome v t); unfold has_error; cbn; try destruct t;
    cbn; split; congruence.
Qed.

Lemma parseNumber_value_no_error (v : jsstring) (t : number_type) (x : number) :
  value (NewTask.parseNumber v t) = Some x ->
  has_error (NewTask.parseNumber v t) = false.
Proof.
  intros H. destruct (has_error (NewTask.parseNumber v t)) eqn:E; [| reflexivity].
  apply parseNumber_error_iff_no_value in E. congruence.
Qed.

(** ** [validate] *)

Lemma lookup_if_insert (b : bool) (k k' : string) (v : string)
    (m : gmap string string) :
  (if b then <[k := v]> m else m) !! k' =
  if b && bool_decide (k = k') then Some v else m !! k'.
Proof.
  destruct b; cbn [andb]; [| reflexivity].
  case_bool_decide as E.
  - subst. apply lookup_insert_eq.
  - now apply lookup_insert_ne.
Qed.

(** The edit dialog validates a form as the new-task page does when the
    free-text sub-division is the one typed in the form. *)
Lemma validate_same (form : FormState) :
  EditModal.validate form =
  NewTask.validate {| NewTask.form := form;
                      NewTask.otherSubdivision := Form.sub_division form |}.
Proof.
  unfold EditModal.validate, NewTask.validate, NewTask.resolvedSubdivision.
  cbn [NewTask.form NewTask.otherSubdivision].
  destruct (NewTask.isOtherSelected _); reflexivity.
Qed.

Ltac lookup_validate :=
  cbv zeta; unfold NewTask.validate, NewTask.check_field;
  cbn [fold_left intFields floatFields Form.get String.eqb Ascii.eqb Bool.eqb];
  rewrite !lookup_if_insert;
  repeat (rewrite bool_decide_eq_false_2 by discriminate);
  repeat (rewrite bool_decide_eq_true_2 by reflexivity);
  rewrite ?andb_false_r, ?andb_true_r, ?lookup_empty.

(** What [validate] records for the two classification fields. *)
Lemma validate_lookup_classification (st : NewTask.State) :
  NewTask.validate st !! "sub_division" =
    (if negb (truthy (NewTask.resolvedSubdivision st))
     then Some "Sub-Division is required."%string else None) /\
  NewTask.validate st !! "account_code" =
    (if negb (is_account_code (Form.account_code (NewTask.form st)))
     then Some "Account Code is required."%string else None).
Proof. lookup_validate. split; reflexivity. Qed.

(** What [validate] records for the two integer fields. *)
Lemma validate_lookup_int (st : NewTask.State) :
  let f := NewTask.form st in
  let nw := NewTask.parseNumber (Form.number_of_works f) TInt in
  let wc := NewTask.parseNumber (Form.works_completed f) TInt in
  NewTask.validate st !! "number_of_works" =
    (if has_error nw then Some (error nw) else None) /\
  NewTask.validate st !! "works_completed" =
    (if both (fun works completed => gt completed works) (value nw) (value wc)
     then Some "Number of Works Completed cannot exceed Number of Works."%string
     else if has_error wc then Some (error wc) else None).
Proof. lookup_validate. split; reflexivity. Qed.

(** What [validate] records for the five decimal fields. *)
Lemma validate_lookup_float (st : NewTask.State) :
  let f := NewTask.form st in
  let ea := NewTask.parseNumber (Form.estimate_amount f) TFloat in
  let aa := NewTask.parseNumber (Form.agreement_amount f) TFloat in
  let e31 := NewTask.parseNumber (Form.exp_upto_31_03_2025 f) TFloat in
  let el := NewTask.parseNumber (Form.exp_upto_last_month f) TFloat in
  let et := NewTask.parseNumber (Form.exp_during_this_month f) TFloat in
  NewTask.validate st !! "estimate_amount" =
    (if has_error ea then Some (error ea) else None) /\
  NewTask.validate st !! "agreement_amount" =
    (if has_error aa then Some (error aa) else None) /\
  NewTask.validate st !! "exp_upto_31_03_2025" =
    (if both (fun agreement exp31 => lt agreement exp31) (value aa) (value e31)
     then Some "Expenditure up to 31-03-2025 must be <= Agreement Amount."%string
     else if has_error e31 then Some (error e31) else None) /\
  NewTask.validate st !! "exp_upto_last_month" =
    (if has_error el then Some (error el) else None) /\
  NewTask.validate st !! "exp_during_this_month" =
    (if has_error et then Some (error et) else None).
Proof. lookup_validate. repeat split; reflexivity. Qed.

Lemma both_None_r (test : number -> number -> bool) (a : option number) :
  both test a None = false.
Proof. destruct a; reflexivity. Qed.

(** A numeric field whose own check fails keeps its own message. *)
Lemma validate_field_error (st : NewTask.State) (field : string)
    (t : number_type) :
  In (field, t) numeric_fields ->
  has_error (NewTask.parseNumber (Form.get (NewTask.form st) field) t) = true ->
  NewTask.validate st !! field =
    Some (error (NewTask.parseNumber (Form.get (NewTask.form st) field) t)).
Proof.
  intros Hin Herr.
  pose proof (validate_lookup_int st) as [Hnw Hwc].
  pose proof (validate_lookup_float st) as (Hea & Haa & He31 & Hel & Het).
  pose proof Herr as Hval. apply parseNumber_error_iff_no_value in Hval.
  cbn in Hin.
  repeat (destruct Hin as [Hin | Hin]; [injection Hin as <- <- |]);
    try contradiction;
    cbn [Form.get String.eqb Ascii.eqb Bool.eqb] in *.
  - now rewrite Hnw, Herr.
  - now rewrite Hwc, Hval, both_None_r, Herr.
  - now rewrite Hea, Herr.
  - now rewrite Haa, Herr.
  - now rewrite He31, Hval, both_None_r, Herr.
  - now rewrite Hel, Herr.
  - now rewrite Het, Herr.
Qed.

(** A recorded error stops the submission. *)
Lemma handleSubmit_rejects (st : NewTask.State) (k v : string) :
  NewTask.validate st !! k = Some v ->
  NewTask.handleSubmit st = (NewTask.validate st, None).
Proof.
  intros H. unfold NewTask.handleSubmit.
  destruct (size (NewTask.validate st)) eqn:E.
  - apply map_size_empty_iff in E. rewrite E, lookup_empty in H. discriminate.
  - reflexivity.
Qed.

Lemma handleSave_rejects (has_task : bool) (form : FormState) (k v : string) :
  EditModal.validate form !! k = Some v ->
  EditModal.handleSave has_task form = (EditModal.validate form, None).
Proof.
  intros H. unfold EditModal.handleSave.
  destruct (size (EditModal.validate form)) eqn:E.
  - apply map_size_empty_iff in E. rewrite E, lookup_empty in H. discriminate.
  - reflexivity.
Qed.

(** ** The claims about the form *)

(** C10. [parseNumber] returns one of two shapes: a value that is a Number,
    not NaN and not below zero, with the empty error message, or no value
    with a non-empty message. The checks come in a fixed order: a blank
    input is "Required." whatever it would parse to, an input that does not
    parse gets the parse message, and a parsed negative "Must be
    non-negative.". Both components behave so. *)
Theorem C10_parseNumber_shape (v : jsstring) (t : number_type) :
  let r := NewTask.parseNumber v t in
  EditModal.parseNumber v t = r /\
  ((exists x, r = {| value := Some x; error := EmptyString |} /\
              isNaN x = false /\ lt x pos_zero = false /\ le pos_zero x = true)
   \/ (exists e, r = {| value := None; error := e |} /\ e <> EmptyString)) /\
  (value r <> None <-> error r = EmptyString) /\
  (trim v = [] -> error r = "Required."%string) /\
  (trim v <> [] -> isNaN (parsed_as t (trim v)) = true ->
   error r = parse_message t) /\
  (trim v <> [] -> isNaN (parsed_as t (trim v)) = false ->
   lt (parsed_as t (trim v)) pos_zero = true ->
   error r = "Must be non-negative."%string).
Proof.
  cbv zeta. split; [reflexivity |]. split; [| split; [| repeat split]].
  - destruct (parseNumber_outcome v t) as [E | E N | E N L | E N L].
    + right. eexists. split; [reflexivity | discriminate].
    + right. eexists. split; [reflexivity | apply parse_message_nonempty].
    + right. eexists. split; [reflexivity | discriminate].
    + left. eexists. split; [reflexivity |].
      repeat split; auto using not_lt_zero_le.
  - destruct (parseNumber_outcome v t) as [E | E N | E N L | E N L]; cbn;
      (split; [congruence | try discriminate]).
    intros H. now apply parse_message_nonempty in H.
  - intros E. now rewrite parseNumber_required.
  - intros E N. now rewrite parseNumber_unparsable.
  - intros E N L. now rewrite parseNumber_negative.
Qed.

(** C10, at the inputs ["   "], ["abc"] and ["-3"] read as integers. *)
Lemma C10_parseNumber_shape_witness :
  error (NewTask.parseNumber (js "   ") TInt) = "Required."%string /\
  error (NewTask.parseNumber (js "abc") TInt) = "Enter a whole number."%string /\
  error (NewTask.parseNumber (js "-3") TInt) = "Must be non-negative."%string.
Proof.
  split; [| split].
  - apply (C10_parseNumber_shape (js "   ") TInt). reflexivity.
  - apply (C10_parseNumber_shape (js "abc") TInt); [discriminate | reflexivity].
  - apply (C10_parseNumber_shape (js "-3") TInt);
      [discriminate | reflexivity | reflexivity].
Defined.

(** C2. [validate] runs every per-field check and returns all the errors in
    one map: a numeric field whose own check fails has its own message in
    the map whatever the other fields hold, and so have a blank
    sub-division and an account code that is neither [Spill] nor [New]. *)
Theorem C2_validate_collects_all (st : NewTask.State) (form : FormState) :
  (forall field t,
     In (field, t) numeric_fields ->
     has_error (NewTask.parseNumber (Form.get (NewTask.form st) field) t) = true ->
     NewTask.validate st !! field =
       Some (error (NewTask.parseNumber (Form.get (NewTask.form st) field) t))) /\
  (NewTask.resolvedSubdivision st = [] ->
   NewTask.validate st !! "sub_division" = Some "Sub-Division is required."%string) /\
  (is_account_code (Form.account_code (NewTask.form st)) = false ->
   NewTask.validate st !! "account_code" = Some "Account Code is required."%string) /\
  (forall field t,
     In (field, t) numeric_fields ->
     has_error (EditModal.parseNumber (Form.get form field) t) = true ->
     EditModal.validate form !! field =
       Some (error (EditModal.parseNumber (Form.get form field) t))) /\
  (trim (Form.sub_division form) = [] ->
   EditModal.validate form !! "sub_division" = Some "Sub-Division is required."%string) /\
  (is_account_code (Form.account_code form) = false ->
   EditModal.validate form !! "account_code" = Some "Account Code is required."%string).
Proof.
  pose proof (validate_lookup_classification st) as [Hs Ha].
  pose proof (validate_lookup_classification
                {| NewTask.form := form;
                   NewTask.otherSubdivision := Form.sub_division form |})
    as [Hs' Ha'].
  rewrite <- validate_same in Hs', Ha'.
  repeat split.
  - intros field t. apply validate_field_error.
  - intros E. now rewrite Hs, E.
  - intros E. now rewrite Ha, E.
  - intros field t Hin Herr. rewrite validate_same.
    now apply (validate_field_error
                 {| NewTask.form := form;
                    NewTask.otherSubdivision := Form.sub_division form |}).
  - intros E. rewrite Hs'. unfold NewTask.resolvedSubdivision.
    cbn [NewTask.form NewTask.otherSubdivision].
    destruct (NewTask.isOtherSelected _); now rewrite E.
  - intros E. rewrite Ha'. cbn [NewTask.form]. now rewrite E.
Qed.

(** C2, at a form with two negative amounts: both are reported. *)
Lemma C2_validate_collects_all_witness :
  NewTask.validate (page_state two_negatives_form) !! "estimate_amount" =
    Some "Must be non-negative."%string /\
  NewTask.validate (page_state two_negatives_form) !! "agreement_amount" =
    Some "Must be non-negative."%string /\
  EditModal.validate two_negatives_form !! "estimate_amount" =
    Some "Must be non-negative."%string /\
  EditModal.validate two_negatives_form !! "agreement_amount" =
    Some "Must be non-negative."%string.
Proof.
  pose proof (C2_validate_collects_all (page_state two_negatives_form)
                two_negatives_form) as (H1 & _ & _ & H2 & _ & _).
  assert (Hea : In ("estimate_amount"%string, TFloat) numeric_fields)
    by (cbn; tauto).
  assert (Haa : In ("agreement_amount"%string, TFloat) numeric_fields)
    by (cbn; tauto).
  split; [| split; [| split]].
  - exact (H1 _ _ Hea eq_refl).
  - exact (H1 _ _ Haa eq_refl).
  - exact (H2 _ _ Hea eq_refl).
  - exact (H2 _ _ Haa eq_refl).
Defined.

(** C3 as stated does not hold: with [number_of_works = "-5"] and
    [works_completed = "3"] both fields parse as integers and 3 exceeds -5,
    yet no error is attached to [works_completed]; the only error is the
    one of [number_of_works]. *)
Lemma C3_counterexample :
  isNaN (parseInt10 (trim (js "-5"))) = false /\
  isNaN (parseInt10 (trim (js "3"))) = false /\
  gt (parseInt10 (trim (js "3"))) (parseInt10 (trim (js "-5"))) = true /\
  NewTask.validate (page_state negative_works_form) !! "works_completed" = None /\
  EditModal.validate negative_works_form !! "works_completed" = None /\
  map_to_list (NewTask.validate (page_state negative_works_form)) =
    [("number_of_works", "Must be non-negative.")]%string.
Proof. vm_compute. repeat split; reflexivity. Qed.

(** C3, amended. When [number_of_works] and [works_completed] both pass
    their own checks (they parse as integers that are not negative) and the
    completed works exceed the works, [validate] attaches the error to
    [works_completed] and nothing is submitted, whatever the other fields
    hold. *)
Theorem C3_works_completed_exceeds (st : NewTask.State) (form : FormState)
    (has_task : bool) :
  (forall works completed,
     value (NewTask.parseNumber (Form.number_of_works (NewTask.form st)) TInt)
       = Some works ->
     value (NewTask.parseNumber (Form.works_completed (NewTask.form st)) TInt)
       = Some completed ->
     gt completed works = true ->
     NewTask.validate st !! "works_completed" =
       Some "Number of Works Completed cannot exceed Number of Works."%string /\
     NewTask.handleSubmit st = (NewTask.validate st, None)) /\
  (forall works completed,
     value (EditModal.parseNumber (Form.number_of_works form) TInt) = Some works ->
     value (EditModal.parseNumber (Form.works_completed form) TInt)
       = Some completed ->
     gt completed works = true ->
     EditModal.validate form !! "works_completed" =
       Some "Number of Works Completed cannot exceed Number of Works."%string /\
     EditModal.handleSave has_task form = (EditModal.validate form, None)).
Proof.
  assert (G : forall st works completed,
     value (NewTask.parseNumber (Form.number_of_works (NewTask.form st)) TInt)
       = Some works ->
     value (NewTask.parseNumber (Form.works_completed (NewTask.form st)) TInt)
       = Some completed ->
     gt completed works = true ->
     NewTask.validate st !! "works_completed" =
       Some "Number of Works Completed cannot exceed Number of Works."%string).
  { intros st' w c Hw Hc Hgt.
    pose proof (validate_lookup_int st') as [_ H]. rewrite H, Hw, Hc.
    cbn [both]. now rewrite Hgt. }
  split; intros w c Hw Hc Hgt.
  - pose proof (G st w c Hw Hc Hgt) as H. split; [exact H |].
    eapply handleSubmit_rejects, H.
  - assert (H : EditModal.validate form !! "works_completed" =
      Some "Number of Works Completed cannot exceed Number of Works."%string).
    { rewrite validate_same. now apply (G _ w c). }
    split; [exact H |]. eapply handleSave_rejects, H.
Qed.

(** C3 amended, at 11 works completed out of 10. *)
Lemma C3_works_completed_exceeds_witness :
  NewTask.validate (page_state too_many_completed_form) !! "works_completed" =
    Some "Number of Works Completed cannot exceed Number of Works."%string /\
  EditModal.validate too_many_completed_form !! "works_completed" =
    Some "Number of Works Completed cannot exceed Number of Works."%string.
Proof.
  pose proof (C3_works_completed_exceeds (page_state too_many_completed_form)
                too_many_completed_form true) as [H1 H2].
  split.
  - exact (proj1 (H1 (of_Z 10) (of_Z 11) eq_refl eq_refl eq_refl)).
  - exact (proj1 (H2 (of_Z 10) (of_Z 11) eq_refl eq_refl eq_refl)).
Defined.

(** C4. When [agreement_amount] and [exp_upto_31_03_2025] both pass their
    own checks (they parse as decimals that are not negative) and the
    expenditure exceeds the agreement amount, [validate] attaches the error
    to [exp_upto_31_03_2025] and nothing is submitted. *)
Theorem C4_expenditure_exceeds_agreement (st : NewTask.State)
    (form : FormState) (has_task : bool) :
  (forall agreement exp31,
     value (NewTask.parseNumber (Form.agreement_amount (NewTask.form st)) TFloat)
       = Some agreement ->
     value (NewTask.parseNumber (Form.exp_upto_31_03_2025 (NewTask.form st)) TFloat)
       = Some exp31 ->
     gt exp31 agreement = true ->
     NewTask.validate st !! "exp_upto_31_03_2025" =
       Some "Expenditure up to 31-03-2025 must be <= Agreement Amount."%string /\
     NewTask.handleSubmit st = (NewTask.validate st, None)) /\
  (forall agreement exp31,
     value (EditModal.parseNumber (Form.agreement_amount form) TFloat)
       = Some agreement ->
     value (EditModal.parseNumber (Form.exp_upto_31_03_2025 form) TFloat)
       = Some exp31 ->
     gt exp31 agreement = true ->
     EditModal.validate form !! "exp_upto_31_03_2025" =
       Some "Expenditure up to 31-03-2025 must be <= Agreement Amount."%string /\
     EditModal.handleSave has_task form = (EditModal.validate form, None)).
Proof.
  assert (G : forall st agreement exp31,
     value (NewTask.parseNumber (Form.agreement_amount (NewTask.form st)) TFloat)
       = Some agreement ->
     value (NewTask.parseNumber (Form.exp_upto_31_03_2025 (NewTask.form st)) TFloat)
       = Some exp31 ->
     gt exp31 agreement = true ->
     NewTask.validate st !! "exp_upto_31_03_2025" =
       Some "Expenditure up to 31-03-2025 must be <= Agreement Amount."%string).
  { intros st' a e Ha He Hgt.
    pose proof (validate_lookup_float st') as (_ & _ & H & _). rewrite H, Ha, He.
    cbn [both]. rewrite gt_lt in Hgt. now rewrite Hgt. }
  split; intros a e Ha He Hgt.
  - pose proof (G st a e Ha He Hgt) as H. split; [exact H |].
    eapply handleSubmit_rejects, H.
  - assert (H : EditModal.validate form !! "exp_upto_31_03_2025" =
      Some "Expenditure up to 31-03-2025 must be <= Agreement Amount."%string).
    { rewrite validate_same. now apply (G _ a e). }
    split; [exact H |]. eapply handleSave_rejects, H.
Qed.

(** C4, at an expenditure of 900.5 against an agreement of 900. *)
Lemma C4_expenditure_exceeds_agreement_witness :
  NewTask.validate (page_state overspent_form) !! "exp_upto_31_03_2025" =
    Some "Expenditure up to 31-03-2025 must be <= Agreement Amount."%string /\
  EditModal.validate overspent_form !! "exp_upto_31_03_2025" =
    Some "Expenditure up to 31-03-2025 must be <= Agreement Amount."%string.
Proof.
  pose proof (C4_expenditure_exceeds_agreement (page_state overspent_form)
                overspent_form true) as [H1 H2].
  split.
  - exact (proj1 (H1 (of_Z 900) (of_decimal false 9005 (-1))
                    eq_refl eq_refl eq_refl)).
  - exact (proj1 (H2 (of_Z 900) (of_decimal false 9005 (-1))
                    eq_refl eq_refl eq_refl)).
Defined.

(** C9. A form passes [validate] without an error and is submitted with
    [works_completed] above [number_of_works]: with [number_of_works = "5"]
    and [works_completed = "5.9"], validation reads 5.9 as the integer 5,
    and the payload carries [Number("5.9")], which exceeds 5. *)
Theorem C9_fractional_works_completed_submitted :
  exists form : FormState,
    Form.number_of_works form = js "5" /\
    Form.works_completed form = js "5.9" /\
    value (NewTask.parseNumber (Form.works_completed form) TInt) = Some (of_Z 5) /\
    NewTask.validate (page_state form) = ∅ /\
    NewTask.handleSubmit (page_state form) =
      (∅, Some (NewTask.payload (page_state form))) /\
    gt (p_works_completed (NewTask.payload (page_state form)))
       (p_number_of_works (NewTask.payload (page_state form))) = true /\
    EditModal.validate form = ∅ /\
    EditModal.handleSave true form = (∅, Some (EditModal.payload form)) /\
    gt (p_works_completed (EditModal.payload form))
       (p_number_of_works (EditModal.payload form)) = true /\
    p_works_completed (EditModal.payload form) = of_decimal false 59 (-1) /\
    p_number_of_works (EditModal.payload form) = of_Z 5.
Proof.
  exists fractional_form.
  assert (E : NewTask.validate (page_state fractional_form) = ∅)
    by (vm_compute; reflexivity).
  assert (E' : EditModal.validate fractional_form = ∅)
    by (rewrite validate_same; vm_compute; reflexivity).
  unfold NewTask.handleSubmit, EditModal.handleSave. rewrite E, E'.
  repeat split; vm_compute; reflexivity.
Qed.

(** C1 as stated does not hold: with [exp_upto_last_month = "1e308"] and
    [exp_during_this_month = "1e308"] every raw field parses to a finite
    Number, the total for the year is [Infinity], and the total value of
    work done is [null] instead of [exp_upto_31_03_2025 + Infinity]. *)
Lemma C1_counterexample :
  let f := overflow_form in
  let exp31 := NewTask.toNumber (Form.exp_upto_31_03_2025 f) in
  let expLast := NewTask.toNumber (Form.exp_upto_last_month f) in
  let expThis := NewTask.toNumber (Form.exp_during_this_month f) in
  isFinite (NewTask.toNumber (Form.number_of_works f)) = true /\
  isFinite (NewTask.toNumber (Form.estimate_amount f)) = true /\
  isFinite (NewTask.toNumber (Form.agreement_amount f)) = true /\
  isFinite exp31 = true /\ isFinite expLast = true /\ isFinite expThis = true /\
  isFinite (NewTask.toNumber (Form.works_completed f)) = true /\
  totalYear (NewTask.computed f) = Some Infinity /\
  totalValue (NewTask.computed f) = None /\
  totalValue (EditModal.computed f) = None /\
  totalValue (NewTask.computed f) <> Some (add exp31 (add expLast expThis)).
Proof. vm_compute. repeat split; try reflexivity. discriminate. Qed.

(** C1, amended. When the six raw fields the derived values are computed
    from parse to finite Numbers, the balance amount is
    [agreement_amount - exp_upto_31_03_2025], the total for the year is
    [exp_upto_last_month + exp_during_this_month], the balance of works is
    [number_of_works - works_completed], and the total value of work done
    is [exp_upto_31_03_2025 + total for the year] when the total for the
    year is finite, [null] when it is not; the arithmetic is that of
    Numbers. The scenario of the specification gives 500.00, 150.00, 550.00
    and 6. *)
Theorem C1_derived_fields (form : FormState) (Number_toString : number -> string) :
  let agreement := NewTask.toNumber (Form.agreement_amount form) in
  let exp31 := NewTask.toNumber (Form.exp_upto_31_03_2025 form) in
  let expLast := NewTask.toNumber (Form.exp_upto_last_month form) in
  let expThis := NewTask.toNumber (Form.exp_during_this_month form) in
  let works := NewTask.toNumber (Form.number_of_works form) in
  let completed := NewTask.toNumber (Form.works_completed form) in
  let expected :=
    {| balanceAmount := Some (sub agreement exp31);
       totalYear := Some (add expLast expThis);
       totalValue :=
         if isFinite (add expLast expThis)
         then Some (add exp31 (add expLast expThis)) else None;
       balanceWorks := Some (sub works completed) |} in
  (isFinite agreement = true -> isFinite exp31 = true ->
   isFinite expLast = true -> isFinite expThis = true ->
   isFinite works = true -> isFinite completed = true ->
   NewTask.computed form = expected /\ EditModal.computed form = expected) /\
  NewTask.computed scenario_form =
    {| balanceAmount := Some (of_Z 500); totalYear := Some (of_Z 150);
       totalValue := Some (of_Z 550); balanceWorks := Some (of_Z 6) |} /\
  EditModal.computed scenario_form = NewTask.computed scenario_form /\
  NewTask.formatFloat Number_toString (of_Z 500) = "500.00"%string /\
  NewTask.formatFloat Number_toString (of_Z 150) = "150.00"%string /\
  NewTask.formatFloat Number_toString (of_Z 550) = "550.00"%string /\
  EditModal.formatFloat Number_toString (Some (of_Z 500)) = "500.00"%string /\
  EditModal.formatFloat Number_toString (Some (of_Z 150)) = "150.00"%string /\
  EditModal.formatFloat Number_toString (Some (of_Z 550)) = "550.00"%string.
Proof.
  cbv zeta. split; [| repeat split; vm_compute; reflexivity].
  intros Ha He Hl Ht Hw Hc.
  assert (G : NewTask.computed form =
    {| balanceAmount :=
         Some (sub (NewTask.toNumber (Form.agreement_amount form))
                   (NewTask.toNumber (Form.exp_upto_31_03_2025 form)));
       totalYear :=
         Some (add (NewTask.toNumber (Form.exp_upto_last_month form))
                   (NewTask.toNumber (Form.exp_during_this_month form)));
       totalValue :=
         if isFinite (add (NewTask.toNumber (Form.exp_upto_last_month form))
                          (NewTask.toNumber (Form.exp_during_this_month form)))
         then Some (add (NewTask.toNumber (Form.exp_upto_31_03_2025 form))
                        (add (NewTask.toNumber (Form.exp_upto_last_month form))
                             (NewTask.toNumber (Form.exp_during_this_month form))))
         else None;
       balanceWorks :=
         Some (sub (NewTask.toNumber (Form.number_of_works form))
                   (NewTask.toNumber (Form.works_completed form))) |}).
  { unfold NewTask.computed. rewrite Ha, He, Hl, Ht, Hw, Hc.
    cbn [andb isFinite_opt fmap option_fmap option_map].
    destruct (isFinite (add _ _)); reflexivity. }
  split; [exact G | exact G].
Qed.

(** C1 amended, at the scenario of the specification. *)
Lemma C1_derived_fields_witness :
  NewTask.computed scenario_form =
    {| balanceAmount := Some (sub (of_Z 900) (of_Z 400));
       totalYear := Some (add (of_Z 100) (of_Z 50));
       totalValue := Some (add (of_Z 400) (add (of_Z 100) (of_Z 50)));
       balanceWorks := Some (sub (of_Z 10) (of_Z 4)) |}.
Proof.
  exact (proj1 (proj1 (C1_derived_fields scenario_form (fun _ => EmptyString))
                  eq_refl eq_refl eq_refl eq_refl eq_refl eq_refl)).
Defined.

(** ** [forwardRequest] *)

Section ForwardProperties.

Context {URL : Type} (new_URL : jsstring -> jsstring -> URL)
  (searchParams_set : jsstring -> jsstring -> URL -> URL)
  (URL_toString : URL -> jsstring) {FormData : Type}
  (Number_toString : number -> jsstring).

Local Abbreviation forwardRequest :=
  (Api.forwardRequest URL new_URL searchParams_set URL_toString FormData
     Number_toString).
Local Abbreviation buildUrl :=
  (Api.buildUrl URL new_URL searchParams_set URL_toString Number_toString).
Local Abbreviation build_init := (Api.build_init FormData Number_toString).

Lemma unreachable_response_body (err : Api.Thrown) :
  Api.res_body (Api.unreachable_response Number_toString err) =
  js "{" ++ quoted "error" ++ js ":{" ++ quoted "code" ++ js ":" ++
  quoted "BACKEND_UNREACHABLE" ++ js "," ++ quoted "message" ++ js ":" ++
  Api.QuoteJSONString (unreachable_message err) ++ js "}}".
Proof.
  unfold Api.unreachable_response.
  cbn [Api.res_body Api.JSON_stringify List.map fst snd Api.join_comma].
  change (match err with
          | Api.ThrownError m => m
          | Api.ThrownOther => js "Unable to reach backend."
          end) with (unreachable_message err).
  generalize (Api.QuoteJSONString (unreachable_message err)) as text.
  intros text.
  repeat first [rewrite <- app_assoc | rewrite <- app_comm_cons]. reflexivity.
Qed.

(** C8. When the call of [fetch] throws, [forwardRequest] returns a
    response of status 502 whose body is the JSON text of an error object
    with the code [BACKEND_UNREACHABLE] and the message of the failure, and
    [fetch] has been called once; in every case [fetch] is called exactly
    once, with the URL and the request built from the options. *)
Theorem C8_backend_unreachable (env : option jsstring)
    (options : Api.ForwardOptions FormData) (net : Api.Network FormData) :
  let url := buildUrl env (Api.path options) (Api.query options) in
  let init := build_init options in
  let result := Api.run net 0 (forwardRequest env options) in
  snd result = [(url, init)] /\
  forall err,
    net 0%nat url init = Api.Rejected err ->
    Api.status (fst result) = 502 /\
    Api.res_body (fst result) =
      js "{" ++ quoted "error" ++ js ":{" ++ quoted "code" ++ js ":" ++
      quoted "BACKEND_UNREACHABLE" ++ js "," ++ quoted "message" ++ js ":" ++
      Api.QuoteJSONString (unreachable_message err) ++ js "}}" /\
    Api.res_headers (fst result) !! "content-type" = Some (js "application/json") /\
    length (snd result) = 1%nat.
Proof.
  cbv zeta. unfold Api.forwardRequest. cbn [Api.run].
  destruct (net 0%nat _ _) as [res | thrown] eqn:E; cbn [Api.run fst snd].
  - split; [reflexivity |]. intros err H. discriminate.
  - split; [reflexivity |]. intros err H. injection H as ->.
    split; [reflexivity |]. split; [apply unreachable_response_body |].
    split; [| reflexivity]. cbn [Api.unreachable_response Api.res_headers].
    apply lookup_singleton_eq.
Qed.

End ForwardProperties.

(** C8, for a network that refuses every connection. *)
Lemma C8_backend_unreachable_witness :
  let refuse : Api.Network Empty_set :=
    fun _ _ _ => Api.Rejected (Api.ThrownError (js "fetch failed")) in
  let options : Api.ForwardOptions Empty_set :=
    {| Api.path := js "/admin/summary"; Api.method := Some (js "GET");
       Api.token := Some (js "t"); Api.query := None; Api.body := None;
       Api.headers := None |} in
  Api.status
    (fst (Api.run refuse 0
            (Api.forwardRequest jsstring (fun p _ => p) (fun _ _ u => u)
               (fun u => u) Empty_set (fun _ => []) None options))) = 502.
Proof.
  cbv zeta.
  exact (proj1 (proj2 (C8_backend_unreachable (fun p _ => p) (fun _ _ u => u)
                         (fun u => u) (fun _ => []) None _ _)
                  (Api.ThrownError (js "fetch failed")) eq_refl)).
Defined.

(** ** The reporting engine *)

Lemma DateTime_leb_refl (t : Query.DateTime) : Query.DateTime_leb t t = true.
Proof.
  unfold Query.DateTime_leb. rewrite Z.eqb_refl, Z.leb_refl.
  apply orb_true_r.
Qed.

Lemma lower_bound_bare (d : Z) (t : Query.DateTime) :
  Query.well_formed_time t ->
  Query.DateTime_leb (Query.lower_bound (Query.BareDate d)) t = true <->
  d <= Query.day t.
Proof.
  unfold Query.well_formed_time, Query.DateTime_leb, Query.ticks_per_day.
  cbn [Query.lower_bound Query.day Query.time_of_day]. intros H.
  rewrite orb_true_iff, andb_true_iff, Z.ltb_lt, Z.eqb_eq, Z.leb_le. lia.
Qed.

Lemma upper_bound_bare (d : Z) (t : Query.DateTime) :
  Query.well_formed_time t ->
  Query.DateTime_leb t (Query.upper_bound (Query.BareDate d)) = true <->
  Query.day t <= d.
Proof.
  unfold Query.well_formed_time, Query.DateTime_leb.
  cbn [Query.upper_bound Query.day Query.time_of_day].
  unfold Query.ticks_per_day. intros H.
  rewrite orb_true_iff, andb_true_iff, Z.ltb_lt, Z.eqb_eq, Z.leb_le. lia.
Qed.

(** C7. The date bounds are inclusive: a record passes the bound that is
    its own [created_at]. A bare date as the lower bound admits the records
    created on that day or later, and as the upper bound the records
    created on that day or earlier, at whatever time of the day; so
    [date_to = 2025-06-30] keeps every record created on 2025-06-30. *)
Theorem C7_date_bounds (r : Query.TaskRecord) (d : Z)
    (flt : Query.Filter) :
  Query.well_formed_time (Query.created_at r) ->
  Query.passes (date_filter (Some (Query.AtTime (Query.created_at r))) None) r = true /\
  Query.passes (date_filter None (Some (Query.AtTime (Query.created_at r)))) r = true /\
  (Query.passes (date_filter (Some (Query.BareDate d)) None) r = true <->
   d <= Query.day (Query.created_at r)) /\
  (Query.passes (date_filter None (Some (Query.BareDate d))) r = true <->
   Query.day (Query.created_at r) <= d) /\
  (Query.day (Query.created_at r) = Query.days_from_civil 2025 6 30 ->
   Query.passes
     (date_filter None (Some (Query.BareDate (Query.days_from_civil 2025 6 30))))
     r = true) /\
  (Query.f_date_to flt = Some (Query.BareDate (Query.day (Query.created_at r))) ->
   Query.passes flt r =
   Query.passes
     {| Query.f_sub_division := Query.f_sub_division flt;
        Query.f_account_code := Query.f_account_code flt;
        Query.f_date_from := Query.f_date_from flt;
        Query.f_date_to := None |} r).
Proof.
  intros W. unfold Query.passes, date_filter.
  cbn [Query.f_sub_division Query.f_account_code Query.f_date_from
         Query.f_date_to andb].
  rewrite !andb_true_r.
  split; [apply DateTime_leb_refl |]. split; [apply DateTime_leb_refl |].
  split; [now apply lower_bound_bare |]. split; [now apply upper_bound_bare |].
  split.
  - intros E. apply upper_bound_bare; [assumption | lia].
  - intros E. rewrite E.
    assert (U : Query.DateTime_leb (Query.created_at r)
                  (Query.upper_bound (Query.BareDate (Query.day (Query.created_at r))))
                = true) by (apply upper_bound_bare; [assumption | lia]).
    now rewrite U, andb_true_r.
Qed.

(** C7, at a record created on 2025-06-30 at noon. *)
Lemma C7_date_bounds_witness :
  Query.passes
    (date_filter None (Some (Query.BareDate (Query.days_from_civil 2025 6 30))))
    north_record = true.
Proof.
  assert (W : Query.well_formed_time (Query.created_at north_record))
    by (unfold Query.well_formed_time; cbn; unfold Query.ticks_per_day; lia).
  exact (proj1 (proj2 (proj2 (proj2 (proj2
           (C7_date_bounds north_record 0 Query.no_filter W))))) eq_refl).
Defined.

Lemma insert_sorted_length (le : Query.TaskRecord -> Query.TaskRecord -> bool)
    (r : Query.TaskRecord) (rs : list Query.TaskRecord) :
  length (Query.insert_sorted le r rs) = S (length rs).
Proof.
  induction rs as [| x rest IH]; cbn; [reflexivity |].
  destruct (le x r); cbn; [now rewrite IH | reflexivity].
Qed.

Lemma sort_records_length (le : Query.TaskRecord -> Query.TaskRecord -> bool)
    (rs : list Query.TaskRecord) :
  length (Query.sort_records le rs) = length rs.
Proof.
  unfold Query.sort_records.
  assert (G : forall acc,
             length (fold_left (fun acc r => Query.insert_sorted le r acc) rs acc)
             = (length acc + length rs)%nat).
  { induction rs as [| r rest IH]; intros acc; cbn [fold_left length].
    - lia.
    - rewrite IH, insert_sorted_length. lia. }
  now rewrite G.
Qed.

Lemma clamp_page_size_range (n : Z) : 1 <= Query.clamp_page_size n <= 500.
Proof. unfold Query.clamp_page_size. lia. Qed.

(** C6. [list] reports the number of matching records, a page size within
    1..500 and [total_pages = max 1 (ceil (total_items / page_size))]; a
    page beyond the last one has no items; and a filter that matches
    nothing, at page size 500, gives no items, zero records and one page. *)
Theorem C6_pagination (records : list Query.TaskRecord) (flt : Query.Filter)
    (sort_by : string) (order : Query.Order) (pg pg_size : Z) :
  let p := Query.list_tasks records flt sort_by order pg pg_size in
  let matching := Z.of_nat (length (List.filter (Query.passes flt) records)) in
  Query.page_size p = Z.max 1 (Z.min 500 pg_size) /\
  1 <= Query.page_size p <= 500 /\
  Query.total_items p = matching /\
  (matching = 0 -> Query.total_pages p = 1) /\
  (0 < matching ->
   (Query.total_pages p - 1) * Query.page_size p < matching
     <= Query.total_pages p * Query.page_size p) /\
  1 <= Query.total_pages p /\
  (Query.total_pages p < pg -> Query.items p = []) /\
  (List.filter (Query.passes flt) records = [] -> pg_size = 500 ->
   p = {| Query.items := []; Query.page := pg; Query.page_size := 500;
          Query.total_items := 0; Query.total_pages := 1 |}).
Proof.
  cbv zeta. unfold Query.list_tasks.
  cbn [Query.page_size Query.total_items Query.total_pages Query.items].
  rewrite sort_records_length.
  pose proof (clamp_page_size_range pg_size) as R.
  set (size := Query.clamp_page_size pg_size) in *.
  set (total := Z.of_nat (length (List.filter (Query.passes flt) records))).
  assert (T : 0 <= total) by (unfold total; lia).
  split; [reflexivity |]. split; [exact R |]. split; [reflexivity |].
  assert (Q0 : total = 0 -> (total + size - 1) / size = 0).
  { intros ->. apply Z.div_small. lia. }
  assert (Q1 : 0 < total ->
               ((total + size - 1) / size - 1) * size < total
                 <= (total + size - 1) / size * size).
  { intros P.
    pose proof (Z.div_mod (total + size - 1) size ltac:(lia)) as D.
    pose proof (Z.mod_pos_bound (total + size - 1) size ltac:(lia)) as B.
    nia. }
  split; [intros E; rewrite (Q0 E); reflexivity |].
  split.
  { intros P. pose proof (Q1 P) as Q.
    assert (1 <= (total + size - 1) / size) by nia.
    rewrite Z.max_r by lia. exact Q. }
  split; [lia |].
  split.
  - intros B.
    assert (L : (length (Query.sort_records (Query.in_order sort_by order)
                           (List.filter (Query.passes flt) records))
                 <= Z.to_nat ((pg - 1) * size))%nat).
    { rewrite sort_records_length.
      destruct (Z.eq_dec total 0) as [E | N].
      - unfold total in E. lia.
      - pose proof (Q1 ltac:(lia)) as Q.
        assert (1 <= (total + size - 1) / size) by nia.
        rewrite Z.max_r in B by lia.
        assert (total <= (pg - 1) * size) by nia.
        unfold total in *. lia. }
    rewrite (drop_ge _ _ L). apply take_nil.
  - intros E ->. subst size total. rewrite E. unfold Query.sort_records.
    cbn [fold_left length]. rewrite drop_nil, take_nil. reflexivity.
Qed.

(** C6, at a page beyond the last and at an empty store. *)
Lemma C6_pagination_witness :
  Query.items
    (Query.list_tasks [north_record] Query.no_filter "sno" Query.Asc 2 50) = [] /\
  Query.list_tasks [north_record] (sub_division_filter "south") "sno"
    Query.Asc 1 500 =
    {| Query.items := []; Query.page := 1; Query.page_size := 500;
       Query.total_items := 0; Query.total_pages := 1 |}.
Proof.
  split.
  - apply (C6_pagination [north_record] Query.no_filter "sno" Query.Asc 2 50).
    vm_compute. reflexivity.
  - apply (C6_pagination [north_record] (sub_division_filter "south") "sno"
             Query.Asc 1 500); reflexivity.
Defined.

Lemma add_to_groups_lookup (key : string) (r : Query.TaskRecord)
    (gs : list Query.SubDivisionGroup) :
  group_totals key (Query.add_to_groups r gs) =
  if String.eqb (Query.sub_division r) key
  then Some (Query.add_record (default Query.zero_totals (group_totals key gs)) r)
  else group_totals key gs.
Proof.
  induction gs as [| g rest IH]; cbn [Query.add_to_groups group_totals].
  - cbn. reflexivity.
  - destruct (String.eqb (Query.g_sub_division g) (Query.sub_division r)) eqn:E.
    + apply String.eqb_eq in E. cbn [group_totals Query.g_sub_division Query.g_totals].
      rewrite E. destruct (String.eqb (Query.sub_division r) key); reflexivity.
    + cbn [group_totals]. rewrite IH.
      destruct (String.eqb (Query.g_sub_division g) key) eqn:K; [| reflexivity].
      apply String.eqb_eq in K. subst key.
      rewrite String.eqb_sym, E. reflexivity.
Qed.

(** One step of [summarize]. *)
Lemma summarize_grand (flt : Query.Filter) (rs : list Query.TaskRecord)
    (acc : Query.Summary) :
  Query.grand_totals
    (fold_left
       (fun acc r =>
          if Query.passes flt r
          then {| Query.grand_totals := Query.add_record (Query.grand_totals acc) r;
                  Query.by_sub_division :=
                    Query.add_to_groups r (Query.by_sub_division acc) |}
          else acc) rs acc) =
  fold_left Query.add_record (List.filter (Query.passes flt) rs)
    (Query.grand_totals acc).
Proof.
  revert acc. induction rs as [| r rest IH]; intros acc; [reflexivity |].
  cbn [fold_left List.filter]. rewrite IH.
  destruct (Query.passes flt r); reflexivity.
Qed.

Lemma summarize_groups (flt : Query.Filter) (key : string)
    (rs : list Query.TaskRecord) (acc : Query.Summary) :
  group_totals key
    (Query.by_sub_division
       (fold_left
          (fun acc r =>
             if Query.passes flt r
             then {| Query.grand_totals := Query.add_record (Query.grand_totals acc) r;
                     Query.by_sub_division :=
                       Query.add_to_groups r (Query.by_sub_division acc) |}
             else acc) rs acc)) =
  match passing_in flt key rs with
  | [] => group_totals key (Query.by_sub_division acc)
  | l => Some (fold_left Query.add_record l
                 (default Query.zero_totals
                    (group_totals key (Query.by_sub_division acc))))
  end.
Proof.
  revert acc. induction rs as [| r rest IH]; intros acc; [reflexivity |].
  cbn [fold_left]. rewrite IH. unfold passing_in. cbn [List.filter].
  fold (passing_in flt key rest).
  destruct (Query.passes flt r); cbn [andb Query.by_sub_division]; [| reflexivity].
  rewrite add_to_groups_lookup.
  destruct (String.eqb (Query.sub_division r) key); [| reflexivity].
  cbn [default fold_left]. destruct (passing_in flt key rest); reflexivity.
Qed.

Lemma fold_add_record_fields (rs : list Query.TaskRecord) (t : Query.Totals) :
  let t' := fold_left Query.add_record rs t in
  Query.t_number_of_works t' =
    fold_left (fun acc r => acc + Query.number_of_works r) rs (Query.t_number_of_works t) /\
  Query.t_estimate_amount t' =
    fold_left (fun acc r => (acc + Query.estimate_amount r)%Q) rs (Query.t_estimate_amount t) /\
  Query.t_agreement_amount t' =
    fold_left (fun acc r => (acc + Query.agreement_amount r)%Q) rs (Query.t_agreement_amount t) /\
  Query.t_exp_upto_31_03_2025 t' =
    fold_left (fun acc r => (acc + Query.exp_upto_31_03_2025 r)%Q) rs (Query.t_exp_upto_31_03_2025 t) /\
  Query.t_balance_amount_as_on_01_04_2025 t' =
    fold_left (fun acc r => (acc + Query.balance_amount_as_on_01_04_2025 r)%Q) rs (Query.t_balance_amount_as_on_01_04_2025 t) /\
  Query.t_exp_upto_last_month t' =
    fold_left (fun acc r => (acc + Query.exp_upto_last_month r)%Q) rs (Query.t_exp_upto_last_month t) /\
  Query.t_exp_during_this_month t' =
    fold_left (fun acc r => (acc + Query.exp_during_this_month r)%Q) rs (Query.t_exp_during_this_month t) /\
  Query.t_total_exp_during_year t' =
    fold_left (fun acc r => (acc + Query.total_exp_during_year r)%Q) rs (Query.t_total_exp_during_year t) /\
  Query.t_total_value_work_done_from_beginning t' =
    fold_left (fun acc r => (acc + Query.total_value_work_done_from_beginning r)%Q) rs (Query.t_total_value_work_done_from_beginning t) /\
  Query.t_works_completed t' =
    fold_left (fun acc r => acc + Query.works_completed r) rs (Query.t_works_completed t) /\
  Query.t_balance_works t' =
    fold_left (fun acc r => acc + Query.balance_works r) rs (Query.t_balance_works t).
Proof.
  cbv zeta. revert t. induction rs as [| r rest IH]; intros t; cbn [fold_left].
  - repeat split; reflexivity.
  - apply (IH (Query.add_record t r)).
Qed.

(** Each field of the totals of a list is the sum of that field. *)
Lemma totals_of_fields (rs : list Query.TaskRecord) :
  let t := totals_of rs in
  Query.t_number_of_works t = sum_of Query.number_of_works rs /\
  Query.t_estimate_amount t =
    sum_of_Q Query.estimate_amount rs /\
  Query.t_agreement_amount t =
    sum_of_Q Query.agreement_amount rs /\
  Query.t_exp_upto_31_03_2025 t =
    sum_of_Q Query.exp_upto_31_03_2025 rs /\
  Query.t_balance_amount_as_on_01_04_2025 t =
    sum_of_Q Query.balance_amount_as_on_01_04_2025 rs /\
  Query.t_exp_upto_last_month t =
    sum_of_Q Query.exp_upto_last_month rs /\
  Query.t_exp_during_this_month t =
    sum_of_Q Query.exp_during_this_month rs /\
  Query.t_total_exp_during_year t =
    sum_of_Q Query.total_exp_during_year rs /\
  Query.t_total_value_work_done_from_beginning t =
    sum_of_Q Query.total_value_work_done_from_beginning rs /\
  Query.t_works_completed t = sum_of Query.works_completed rs /\
  Query.t_balance_works t = sum_of Query.balance_works rs.
Proof. exact (fold_add_record_fields rs Query.zero_totals). Qed.

Lemma north_passes (r : Query.TaskRecord) :
  Query.sub_division r = "North Zone"%string ->
  Query.passes (sub_division_filter "north") r = true.
Proof. intros E. unfold Query.passes. cbn. rewrite E. reflexivity. Qed.

(** C5. The grand totals of [summarize] are the totals of exactly the
    records that pass the filter, field by field. The sub-division filter
    is a substring test that ignores case, so a record of [North Zone]
    passes the filter [north]; the groups are keyed by the exact string: a
    key has a group when a passing record carries exactly that string, and
    the group totals are those of the passing records with that string. The
    record of [North Zone] is grouped under ["North Zone"] and under no
    other key. *)
Theorem C5_summarize_totals (records : list Query.TaskRecord)
    (flt : Query.Filter) :
  let s := Query.summarize records flt in
  let passing := List.filter (Query.passes flt) records in
  Query.grand_totals s = totals_of passing /\
  Query.t_number_of_works (Query.grand_totals s) =
    sum_of Query.number_of_works passing /\
  Query.t_estimate_amount (Query.grand_totals s) =
    sum_of_Q Query.estimate_amount passing /\
  Query.t_agreement_amount (Query.grand_totals s) =
    sum_of_Q Query.agreement_amount passing /\
  Query.t_exp_upto_31_03_2025 (Query.grand_totals s) =
    sum_of_Q Query.exp_upto_31_03_2025 passing /\
  Query.t_balance_amount_as_on_01_04_2025 (Query.grand_totals s) =
    sum_of_Q Query.balance_amount_as_on_01_04_2025 passing /\
  Query.t_exp_upto_last_month (Query.grand_totals s) =
    sum_of_Q Query.exp_upto_last_month passing /\
  Query.t_exp_during_this_month (Query.grand_totals s) =
    sum_of_Q Query.exp_during_this_month passing /\
  Query.t_total_exp_during_year (Query.grand_totals s) =
    sum_of_Q Query.total_exp_during_year passing /\
  Query.t_total_value_work_done_from_beginning (Query.grand_totals s) =
    sum_of_Q Query.total_value_work_done_from_beginning passing /\
  Query.t_works_completed (Query.grand_totals s) =
    sum_of Query.works_completed passing /\
  Query.t_balance_works (Query.grand_totals s) =
    sum_of Query.balance_works passing /\
  (forall key,
     group_totals key (Query.by_sub_division s) =
     match passing_in flt key records with
     | [] => None
     | l => Some (totals_of l)
     end) /\
  (forall r, Query.sub_division r = "North Zone"%string ->
             Query.passes (sub_division_filter "north") r = true) /\
  List.map Query.g_sub_division
    (Query.by_sub_division
       (Query.summarize [north_record] (sub_division_filter "north")))
    = ["North Zone"%string] /\
  group_totals "north"
    (Query.by_sub_division
       (Query.summarize [north_record] (sub_division_filter "north"))) = None.
Proof.
  cbv zeta.
  assert (G : Query.grand_totals (Query.summarize records flt) =
              totals_of (List.filter (Query.passes flt) records)).
  { unfold Query.summarize. now rewrite summarize_grand. }
  split; [exact G |]. rewrite G.
  pose proof (totals_of_fields (List.filter (Query.passes flt) records)) as F.
  cbv zeta in F.
  destruct F as (F1 & F2 & F3 & F4 & F5 & F6 & F7 & F8 & F9 & F10 & F11).
  do 11 (split; [assumption |]).
  split.
  - intros key. unfold Query.summarize. rewrite summarize_groups.
    cbn [Query.by_sub_division group_totals default]. reflexivity.
  - split; [exact north_passes |]. split; reflexivity.
Qed.

(** C5, at the record of [North Zone] and the filter [north]. *)
Lemma C5_summarize_totals_witness :
  Query.passes (sub_division_filter "north") north_record = true.
Proof.
  exact (proj1 (proj2 (proj2 (proj2 (proj2 (proj2 (proj2 (proj2 (proj2 (proj2
          (proj2 (proj2 (proj2 (proj2
            (C5_summarize_totals [] Query.no_filter))))))))))))))
          north_record eq_refl).
Defined.

(** ** White space around a form value *)

Lemma trim_start_head (s : jsstring) :
  trim_start s = [] \/
  exists c r, trim_start s = c :: r /\ is_white_space c = false.
Proof.
  induction s as [| c r IH]; [now left |].
  cbn [trim_start]. destruct (is_white_space c) eqn:E; [exact IH |].
  right. now exists c, r.
Qed.

Lemma trim_start_fixed (c : code_unit) (r : jsstring) :
  is_white_space c = false -> trim_start (c :: r) = c :: r.
Proof. intros E. cbn [trim_start]. now rewrite E. Qed.

Lemma trim_start_app (s t : jsstring) :
  trim_start (s ++ t) =
  if forallb is_white_space s then trim_start t else trim_start s ++ t.
Proof.
  induction s as [| c r IH]; [reflexivity |].
  cbn [app trim_start forallb]. destruct (is_white_space c); [exact IH | reflexivity].
Qed.

Lemma trim_start_white (s : jsstring) :
  forallb is_white_space s = true -> trim_start s = [].
Proof.
  induction s as [| c r IH]; [reflexivity |].
  cbn [forallb trim_start]. intros H. apply andb_true_iff in H as [Hc Hr].
  rewrite Hc. now apply IH.
Qed.

Lemma forallb_rev {A} (f : A -> bool) (l : list A) :
  forallb f (rev l) = forallb f l.
Proof.
  induction l as [| a l IH]; [reflexivity |].
  cbn [rev forallb]. rewrite forallb_app, IH. cbn. rewrite andb_true_r.
  apply andb_comm.
Qed.

Lemma trim_end_app_white (s w : jsstring) :
  forallb is_white_space w = true -> trim_end (s ++ w) = trim_end s.
Proof.
  intros H. unfold trim_end. rewrite rev_app_distr, trim_start_app.
  now rewrite forallb_rev, H.
Qed.

Lemma trim_end_white (s : jsstring) :
  forallb is_white_space s = true -> trim_end s = [].
Proof.
  intros H. unfold trim_end. rewrite trim_start_white; [reflexivity |].
  now rewrite forallb_rev.
Qed.

(** A trimmed string is empty or begins and ends with a character that is
    no white space. *)
Lemma trim_shape (s : jsstring) :
  trim s = [] \/
  exists c r, trim s = c :: r /\ is_white_space c = false /\
              trim_start (rev (c :: r)) = rev (c :: r).
Proof.
  unfold trim, trim_end.
  destruct (trim_start_head s) as [E | (c & r & E & Hc)].
  - left. now rewrite E.
  - rewrite E. right.
    assert (R : trim_start (rev (c :: r)) = trim_start (rev r) ++ [c]
                \/ trim_start (rev (c :: r)) = [c]).
    { cbn [rev]. rewrite trim_start_app.
      destruct (forallb is_white_space (rev r)); [right | left; reflexivity].
      now apply trim_start_fixed. }
    destruct R as [R | R].
    + destruct (trim_start_head (rev r)) as [E' | (c' & r' & E' & Hc')].
      * rewrite R, E'. cbn. exists c, []. cbn. now rewrite Hc.
      * rewrite R, E'.
        assert (Q : rev ((c' :: r') ++ [c]) = c :: rev (c' :: r'))
          by (now rewrite rev_app_distr).
        rewrite Q. exists c, (rev (c' :: r')).
        split; [reflexivity |]. split; [assumption |].
        assert (Q' : rev (c :: rev (c' :: r')) = c' :: (r' ++ [c])).
        { change (rev (rev (c' :: r')) ++ [c] = c' :: (r' ++ [c])).
          now rewrite rev_involutive. }
        rewrite Q'. now apply trim_start_fixed.
    + rewrite R. cbn. exists c, []. cbn. now rewrite Hc.
Qed.

Lemma trim_idempotent (s : jsstring) : trim (trim s) = trim s.
Proof.
  destruct (trim_shape s) as [E | (c & r & E & Hc & Hr)]; rewrite E.
  - reflexivity.
  - unfold trim. rewrite (trim_start_fixed c r Hc). unfold trim_end.
    rewrite Hr. apply rev_involutive.
Qed.

Lemma trim_padded (before after v : jsstring) :
  forallb is_white_space before = true ->
  forallb is_white_space after = true ->
  trim (before ++ v ++ after) = trim v.
Proof.
  intros Hb Ha. unfold trim. rewrite trim_start_app, Hb, trim_start_app.
  destruct (forallb is_white_space v) eqn:E.
  - rewrite (trim_start_white after Ha), (trim_start_white v E). reflexivity.
  - now apply trim_end_app_white.
Qed.

Lemma Number_trim (v : jsstring) : Number (trim v) = Number v.
Proof. unfold Number. now rewrite trim_idempotent. Qed.

(** X1. White space typed before or after a value does not change what
    [parseNumber] returns, nor the number the derived fields and the
    payload are computed from. *)
Theorem parseNumber_ignores_padding (before after v : jsstring)
    (t : number_type) :
  forallb is_white_space before = true ->
  forallb is_white_space after = true ->
  NewTask.parseNumber (before ++ v ++ after) t = NewTask.parseNumber v t /\
  EditModal.parseNumber (before ++ v ++ after) t = EditModal.parseNumber v t /\
  NewTask.toNumber (before ++ v ++ after) = NewTask.toNumber v /\
  EditModal.toNumber (before ++ v ++ after) = EditModal.toNumber v /\
  Number (before ++ v ++ after) = Number v.
Proof.
  intros Hb Ha.
  unfold NewTask.parseNumber, EditModal.parseNumber, NewTask.toNumber,
    EditModal.toNumber, Number.
  rewrite (trim_padded before after v Hb Ha). repeat split; reflexivity.
Qed.

Lemma parseNumber_ignores_padding_witness :
  NewTask.parseNumber (js "  " ++ js "12" ++ js " ") TInt =
  NewTask.parseNumber (js "12") TInt.
Proof.
  exact (proj1 (parseNumber_ignores_padding (js "  ") (js " ") (js "12") TInt
                  eq_refl eq_refl)).
Defined.

(** ** The whole of [validate] *)

Lemma validate_lookup_other (st : NewTask.State) (k : string) :
  ~ In k field_names -> NewTask.validate st !! k = None.
Proof.
  intros H. cbn in H.
  unfold NewTask.validate, NewTask.check_field.
  cbn [fold_left intFields floatFields Form.get String.eqb Ascii.eqb Bool.eqb].
  rewrite !lookup_if_insert.
  repeat (rewrite bool_decide_eq_false_2 by (intros E; apply H; rewrite <- E; tauto)).
  rewrite ?andb_false_r. apply lookup_empty.
Qed.

Lemma if_some_none {A} (b : bool) (x : A) (o : option A) :
  (if b then Some x else o) = None <-> b = false /\ o = None.
Proof. destruct b; split; try tauto; try discriminate. intros [E _]. discriminate. Qed.

Lemma validate_empty_iff (st : NewTask.State) :
  NewTask.validate st = ∅ <-> accepts st = true.
Proof.
  pose proof (validate_lookup_classification st) as [Hs Ha].
  pose proof (validate_lookup_int st) as [Hnw Hwc].
  pose proof (validate_lookup_float st) as (Hea & Haa & He31 & Hel & Het).
  cbv zeta in *. unfold accepts.
  cbn [forallb numeric_fields intFields floatFields List.map app fst snd
         Form.get String.eqb Ascii.eqb Bool.eqb].
  split.
  - intros E. rewrite E, lookup_empty in *.
    symmetry in Hs, Ha, Hnw, Hwc, Hea, Haa, He31, Hel, Het.
    apply if_some_none in Hs as [Hs _], Ha as [Ha _], Hnw as [Hnw _],
      Hwc as [Hwc1 Hwc2], Hea as [Hea _], Haa as [Haa _],
      He31 as [He1 He2], Hel as [Hel _], Het as [Het _].
    apply if_some_none in Hwc2 as [Hwc2 _], He2 as [He2 _].
    apply negb_false_iff in Hs, Ha.
    now rewrite Hs, Ha, Hnw, Hwc1, Hwc2, Hea, Haa, He1, He2, Hel, Het.
  - intros E. rewrite !andb_true_iff, !negb_true_iff in E.
    destruct E as ((((Es & Ea) & (Enw & Ewc & Eea & Eaa & Ee31 & Eel & Eet & _))
                    & Eb1) & Eb2).
    rewrite Es in Hs. rewrite Ea in Ha. rewrite Enw in Hnw.
    rewrite Eb1, Ewc in Hwc. rewrite Eea in Hea. rewrite Eaa in Haa.
    rewrite Eb2, Ee31 in He31. rewrite Eel in Hel. rewrite Eet in Het.
    cbn [negb] in Hs, Ha.
    apply map_eq. intros k. rewrite lookup_empty.
    destruct (in_dec string_dec k field_names) as [I | N];
      [| now apply validate_lookup_other].
    cbn in I. repeat (destruct I as [<- | I]; [assumption |]). contradiction.
Qed.

(** X2. [validate] returns the empty map exactly when every rule holds: the
    sub-division is not blank, the account code is [Spill] or [New], each
    numeric field passes its own check, the works completed do not exceed
    the works and the expenditure up to 31-03-2025 does not exceed the
    agreement amount; then, and only then, the page posts the payload and
    the dialog editing a task saves it. *)
Theorem validate_accepts_exactly (st : NewTask.State) (form : FormState) :
  (NewTask.validate st = ∅ <-> accepts st = true) /\
  (NewTask.handleSubmit st = (∅, Some (NewTask.payload st)) <-> accepts st = true) /\
  (EditModal.validate form = ∅ <->
   accepts {| NewTask.form := form;
              NewTask.otherSubdivision := Form.sub_division form |} = true) /\
  (EditModal.handleSave true form = (∅, Some (EditModal.payload form)) <->
   accepts {| NewTask.form := form;
              NewTask.otherSubdivision := Form.sub_division form |} = true).
Proof.
  assert (S : forall m : gmap string string,
             (0 <? Z.of_nat (size m)) = false <-> m = ∅).
  { intros m. rewrite <- map_size_empty_iff, Z.ltb_ge. lia. }
  split; [apply validate_empty_iff |]. split; [| split].
  - rewrite <- validate_empty_iff. unfold NewTask.handleSubmit.
    destruct (0 <? Z.of_nat (size (NewTask.validate st))) eqn:E.
    + split; [discriminate |]. intros H. apply S in H. congruence.
    + apply S in E. rewrite E. tauto.
  - rewrite validate_same. apply validate_empty_iff.
  - rewrite <- validate_empty_iff, <- validate_same. unfold EditModal.handleSave.
    destruct (0 <? Z.of_nat (size (EditModal.validate form))) eqn:E.
    + split; [discriminate |]. intros H. apply S in H. congruence.
    + apply S in E. rewrite E. cbn [negb]. tauto.
Qed.

(** X3. [validate] records errors under the names of the nine form fields
    and under no other name. *)
Theorem validate_keys (st : NewTask.State) (form : FormState) (k : string) :
  (is_Some (NewTask.validate st !! k) -> In k field_names) /\
  (is_Some (EditModal.validate form !! k) -> In k field_names).
Proof.
  assert (G : forall st, is_Some (NewTask.validate st !! k) -> In k field_names).
  { intros st' [v H]. destruct (in_dec string_dec k field_names) as [I | N];
      [assumption |].
    rewrite validate_lookup_other in H by assumption. discriminate. }
  split; [apply G |]. rewrite validate_same. apply G.
Qed.

Lemma validate_keys_witness :
  In "works_completed"%string field_names.
Proof.
  apply (validate_keys (page_state too_many_completed_form)
           too_many_completed_form "works_completed").
  vm_compute. eexists. reflexivity.
Defined.

Lemma validate_accepts_exactly_witness :
  NewTask.validate (page_state scenario_form) = ∅.
Proof.
  apply (proj1 (validate_accepts_exactly (page_state scenario_form) scenario_form)).
  vm_compute. reflexivity.
Defined.

(** ** What is sent for a decimal field *)

Lemma parseNumber_float_accepted (v : jsstring) :
  has_error (NewTask.parseNumber v TFloat) = false ->
  value (NewTask.parseNumber v TFloat) = Some (Number v) /\
  NewTask.toNumber v = Number v /\
  isNaN (Number v) = false /\ lt (Number v) pos_zero = false /\
  le pos_zero (Number v) = true.
Proof.
  intros H. unfold NewTask.toNumber.
  destruct (parseNumber_outcome v TFloat) as [E | E N | E N L | E N L];
    try (unfold has_error in H; cbn in H; discriminate).
  cbn [parsed_as] in N, L. rewrite Number_trim in N, L.
  destruct (truthy (trim v)) eqn:T; [| apply truthy_false in T; contradiction].
  cbn [value negb parsed_as]. rewrite Number_trim.
  repeat split; auto using not_lt_zero_le.
Qed.

(** X4. When a form passes validation, each of the five decimal fields is
    sent as the Number that validation accepted and that the derived values
    are computed from: it is not NaN and not negative, and the agreement
    amount sent is not below the expenditure up to 31-03-2025 sent. *)
Theorem decimals_sent_as_validated (st : NewTask.State) :
  accepts st = true ->
  let f := NewTask.form st in
  let p := NewTask.payload st in
  (value (NewTask.parseNumber (Form.estimate_amount f) TFloat)
     = Some (p_estimate_amount p) /\
   value (NewTask.parseNumber (Form.agreement_amount f) TFloat)
     = Some (p_agreement_amount p) /\
   value (NewTask.parseNumber (Form.exp_upto_31_03_2025 f) TFloat)
     = Some (p_exp_upto_31_03_2025 p) /\
   value (NewTask.parseNumber (Form.exp_upto_last_month f) TFloat)
     = Some (p_exp_upto_last_month p) /\
   value (NewTask.parseNumber (Form.exp_during_this_month f) TFloat)
     = Some (p_exp_during_this_month p)) /\
  (NewTask.toNumber (Form.agreement_amount f) = p_agreement_amount p /\
   NewTask.toNumber (Form.exp_upto_31_03_2025 f) = p_exp_upto_31_03_2025 p /\
   NewTask.toNumber (Form.exp_upto_last_month f) = p_exp_upto_last_month p /\
   NewTask.toNumber (Form.exp_during_this_month f) = p_exp_during_this_month p) /\
  (le pos_zero (p_estimate_amount p) = true /\
   le pos_zero (p_agreement_amount p) = true /\
   le pos_zero (p_exp_upto_31_03_2025 p) = true /\
   le pos_zero (p_exp_upto_last_month p) = true /\
   le pos_zero (p_exp_during_this_month p) = true) /\
  lt (p_agreement_amount p) (p_exp_upto_31_03_2025 p) = false.
Proof.
  intros A. cbv zeta. unfold accepts in A.
  cbn [forallb numeric_fields intFields floatFields List.map app fst snd
         Form.get String.eqb Ascii.eqb Bool.eqb] in A.
  rewrite !andb_true_iff, !negb_true_iff in A.
  destruct A as ((((_ & _) & (_ & _ & Eea & Eaa & Ee31 & Eel & Eet & _)) & _) & Eb).
  apply parseNumber_float_accepted in Eea as (V1 & _ & _ & _ & L1).
  apply parseNumber_float_accepted in Eaa as (V2 & T2 & _ & _ & L2).
  apply parseNumber_float_accepted in Ee31 as (V3 & T3 & _ & _ & L3).
  apply parseNumber_float_accepted in Eel as (V4 & T4 & _ & _ & L4).
  apply parseNumber_float_accepted in Eet as (V5 & T5 & _ & _ & L5).
  rewrite V2, V3 in Eb. cbn [both] in Eb.
  cbn [NewTask.payload p_estimate_amount p_agreement_amount
         p_exp_upto_31_03_2025 p_exp_upto_last_month p_exp_during_this_month].
  repeat split; assumption.
Qed.

Lemma decimals_sent_as_validated_witness :
  lt (p_agreement_amount (NewTask.payload (page_state scenario_form)))
     (p_exp_upto_31_03_2025 (NewTask.payload (page_state scenario_form))) = false.
Proof.
  apply (decimals_sent_as_validated (page_state scenario_form)).
  vm_compute. reflexivity.
Defined.

(** ** How amounts are displayed *)

Lemma length_substring (s : string) (n m : nat) :
  (n + m <= String.length s)%nat -> String.length (substring n m s) = m.
Proof.
  revert n m. induction s as [| c s IH]; intros n m H; cbn in H.
  - assert (n = 0%nat /\ m = 0%nat) as [-> ->] by lia. reflexivity.
  - destruct n as [| n]; destruct m as [| m]; cbn [substring String.length].
    + reflexivity.
    + rewrite IH by lia. reflexivity.
    + apply IH. lia.
    + apply IH. lia.
Qed.

Lemma length_string_append (a b : string) :
  String.length (String.append a b) = (String.length a + String.length b)%nat.
Proof.
  induction a as [| c a IH]; [reflexivity |].
  change (S (String.length (String.append a b)) =
          S (String.length a + String.length b)).
  f_equal. exact IH.
Qed.

Lemma length_zeros (n : nat) : String.length (JsFormat.zeros n) = n.
Proof.
  induction n as [| n IH]; [reflexivity |].
  cbn [JsFormat.zeros String.length]. f_equal. exact IH.
Qed.

Lemma to_ratio_sign (x : number) (n d : Z) :
  to_ratio x = Some (n, d) -> (n <? 0) = lt x pos_zero.
Proof.
  destruct x as [s | s | | s m e]; cbn; try discriminate.
  - intros H. injection H as <- <-. reflexivity.
  - destruct (0 <=? e) eqn:E; intros H; injection H as <- <-;
      destruct s; cbn [lt SFltb SFcompare pos_zero]; try reflexivity.
    all: apply Z.leb_le in E;
      assert (0 < 2 ^ e) by (apply Z.pow_pos_nonneg; lia).
    + apply Z.ltb_lt. nia.
    + apply Z.ltb_ge. nia.
Qed.

(** X5. An amount is displayed with exactly two digits after the point:
    for a finite Number whose magnitude is below [10^21], [formatFloat]
    writes a minus sign when the Number is below zero, then at least one
    character, a point and two characters. The edit dialog shows a dash
    for [null] and for NaN. *)
Theorem formatFloat_two_decimals (Number_toString : number -> string)
    (x : number) (n d : Z) :
  to_ratio x = Some (n, d) -> Z.abs n < 10 ^ 21 * d ->
  exists whole frac : string,
    NewTask.formatFloat Number_toString x =
      String.append (if lt x pos_zero then "-"%string else EmptyString)
        (String.append whole (String "." frac)) /\
    (1 <= String.length whole)%nat /\ String.length frac = 2%nat /\
    EditModal.formatFloat Number_toString (Some x) =
      NewTask.formatFloat Number_toString x /\
    EditModal.formatFloat Number_toString None = "-"%string /\
    EditModal.formatFloat Number_toString (Some NaN) = "-"%string.
Proof.
  intros R B.
  assert (F : isNaN x = false) by (destruct x; cbn in *; congruence).
  unfold EditModal.formatFloat, NewTask.formatFloat, JsFormat.toFixed.
  rewrite F, R, (to_ratio_sign x n d R).
  destruct (10 ^ 21 * d <=? Z.abs n) eqn:E; [apply Z.leb_le in E; lia |].
  set (m := JsFormat.decimal_string _).
  set (m' := if (String.length m <=? 2)%nat
             then String.append (JsFormat.zeros (2 + 1 - String.length m)) m
             else m).
  assert (L : (3 <= String.length m')%nat).
  { unfold m'. destruct (String.length m <=? 2)%nat eqn:C.
    - apply Nat.leb_le in C. rewrite length_string_append, length_zeros. lia.
    - apply Nat.leb_gt in C. lia. }
  exists (substring 0 (String.length m' - 2) m'),
         (substring (String.length m' - 2) 2 m').
  split; [reflexivity |].
  rewrite !length_substring by lia.
  repeat split; try reflexivity. lia.
Qed.

Lemma formatFloat_two_decimals_witness :
  exists whole frac : string,
    NewTask.formatFloat (fun _ => EmptyString) (of_decimal false 1234567 (-3)) =
      String.append EmptyString (String.append whole (String "." frac)) /\
    (1 <= String.length whole)%nat /\ String.length frac = 2%nat.
Proof.
  destruct (formatFloat_two_decimals (fun _ => EmptyString)
              (of_decimal false 1234567 (-3)) 5429683087074132 4398046511104
              eq_refl eq_refl) as (whole & frac & H1 & H2 & H3 & _).
  exists whole, frac. repeat split; assumption.
Defined.

(** ** The request built by [forwardRequest] *)

Section RequestProperties.

Context {URL : Type} (new_URL : jsstring -> jsstring -> URL)
  (searchParams_set : jsstring -> jsstring -> URL -> URL)
  (URL_toString : URL -> jsstring) {FormData : Type}
  (Number_toString : number -> jsstring).

Local Abbreviation forwardRequest :=
  (Api.forwardRequest URL new_URL searchParams_set URL_toString FormData
     Number_toString).
Local Abbreviation buildUrl :=
  (Api.buildUrl URL new_URL searchParams_set URL_toString Number_toString).
Local Abbreviation build_init := (Api.build_init FormData Number_toString).

Lemma fold_set_skips_unset (entries : Api.QueryParams) (url : URL) :
  fold_left
    (fun url '(key, value) =>
       if Api.is_unset value then url
       else searchParams_set key (Api.String_of Number_toString value) url)
    entries url =
  fold_left
    (fun url '(key, value) =>
       if Api.is_unset value then url
       else searchParams_set key (Api.String_of Number_toString value) url)
    (List.filter (fun kv => negb (Api.is_unset (snd kv))) entries) url.
Proof.
  revert url. induction entries as [| [key value] rest IH]; intros url;
    [reflexivity |].
  cbn [fold_left List.filter snd].
  destruct (Api.is_unset value) eqn:E; cbn [negb].
  - apply IH.
  - cbn [fold_left]. rewrite E. apply IH.
Qed.

(** X6. [buildUrl] leaves out the query entries whose value is [undefined],
    [null] or the empty string: the URL is the one built from the other
    entries, and with no entry left it is the URL of the path alone, as
    when no query is given. *)
Theorem buildUrl_skips_unset (env : option jsstring) (path : jsstring)
    (entries : Api.QueryParams) :
  buildUrl env path (Some entries) =
    buildUrl env path
      (Some (List.filter (fun kv => negb (Api.is_unset (snd kv))) entries)) /\
  (forallb (fun kv => Api.is_unset (snd kv)) entries = true ->
   buildUrl env path (Some entries) = buildUrl env path None) /\
  buildUrl env path None = URL_toString (new_URL path (Api.API_BASE_URL env)).
Proof.
  unfold Api.buildUrl. split; [| split].
  - now rewrite fold_set_skips_unset.
  - intros H. rewrite fold_set_skips_unset.
    assert (E : List.filter (fun kv => negb (Api.is_unset (snd kv))) entries = []).
    { induction entries as [| kv rest IH]; [reflexivity |].
      cbn [forallb] in H. apply andb_true_iff in H as [H1 H2].
      cbn [List.filter]. rewrite H1. cbn [negb]. now apply IH. }
    now rewrite E.
  - reflexivity.
Qed.

(** X7. [forwardRequest] hands on whatever response [fetch] resolved to,
    whatever its status, and calls [fetch] once. *)
Theorem forwardRequest_passes_response (env : option jsstring)
    (options : Api.ForwardOptions FormData) (net : Api.Network FormData)
    (res : Api.Response) :
  net 0%nat (buildUrl env (Api.path options) (Api.query options))
    (build_init options) = Api.Fulfilled res ->
  Api.run net 0 (forwardRequest env options) =
    (res, [(buildUrl env (Api.path options) (Api.query options),
            build_init options)]).
Proof.
  intros H. unfold Api.forwardRequest. cbn [Api.run]. now rewrite H.
Qed.

(** X8. The headers of the forwarded request: a token that is not empty is
    sent as [Authorization: Bearer <token>] even when the caller passed an
    [Authorization] header of its own; the caller's [Accept] replaces the
    default [application/json]; a body that is neither a string nor a
    [FormData] is sent as JSON text with [Content-Type: application/json],
    while a string body keeps the caller's [Content-Type]. *)
Theorem build_init_headers (options : Api.ForwardOptions FormData) :
  let init := build_init options in
  (forall t, Api.token options = Some t -> t <> [] ->
     Api.init_headers init !! "Authorization" = Some (js "Bearer " ++ t)) /\
  (forall h a, Api.headers options = Some h -> h !! "Accept" = Some a ->
     Api.init_headers init !! "Accept" = Some a) /\
  (Api.headers options = None ->
     Api.init_headers init !! "Accept" = Some (js "application/json")) /\
  (forall v, Api.body options = Some (Api.BodyValue FormData v) ->
     Api.init_headers init !! "Content-Type" = Some (js "application/json") /\
     Api.init_body init =
       Some (Api.SendText FormData (Api.JSON_stringify Number_toString v))) /\
  (forall s h, Api.body options = Some (Api.BodyString FormData s) ->
     Api.headers options = Some h ->
     Api.init_headers init !! "Content-Type" = h !! "Content-Type" /\
     Api.init_body init = Some (Api.SendText FormData s)) /\
  (Api.method options = None -> Api.init_method init = js "GET").
Proof.
  cbv zeta. unfold Api.build_init.
  destruct options as [path method token query body headers].
  cbn [Api.token Api.headers Api.body Api.method].
  split; [| split; [| split; [| split; [| split]]]].
  - intros t -> Ht. destruct t as [| c t]; [contradiction |]. cbn [truthy].
    destruct body as [[fd | s | v] |]; cbn [Api.init_headers];
      rewrite ?(lookup_insert_ne (M := gmap string)) by discriminate;
      apply lookup_insert_eq.
  - intros h a -> Ha.
    assert (U : (h ∪ {[ "Accept"%string := js "application/json" ]}) !! "Accept"
                = Some a) by (apply lookup_union_Some_l; exact Ha).
    destruct token as [[| c t] |]; cbn [truthy];
      destruct body as [[fd | s | v] |]; cbn [Api.init_headers];
      rewrite ?(lookup_insert_ne (M := gmap string)) by discriminate; exact U.
  - intros ->.
    destruct token as [[| c t] |]; cbn [truthy];
      destruct body as [[fd | s | v] |]; cbn [Api.init_headers];
      rewrite ?(lookup_insert_ne (M := gmap string)) by discriminate;
      apply lookup_singleton_eq.
  - intros v0 E. rewrite E. split; [| reflexivity].
    cbn [Api.init_headers]. apply lookup_insert_eq.
  - intros s0 h E ->. rewrite E. split; [| reflexivity].
    cbn [Api.init_headers].
    destruct token as [[| c t] |]; cbn [truthy];
      rewrite ?(lookup_insert_ne (M := gmap string)) by discriminate;
      rewrite lookup_union, lookup_singleton_ne by discriminate;
      destruct (h !! "Content-Type"); reflexivity.
  - intros ->. destruct body as [[fd | s | v] |]; reflexivity.
Qed.

End RequestProperties.

Lemma buildUrl_skips_unset_witness :
  Api.buildUrl jsstring sample_new_URL sample_set (fun u => u) sample_toString
    None (js "/tasks") (Some [(js "page", Api.QUndefined); (js "q", Api.QString [])])
  = Api.buildUrl jsstring sample_new_URL sample_set (fun u => u) sample_toString
      None (js "/tasks") None.
Proof.
  exact (proj1 (proj2 (buildUrl_skips_unset sample_new_URL sample_set
                         (fun u => u) sample_toString None (js "/tasks")
                         [(js "page", Api.QUndefined); (js "q", Api.QString [])]))
           eq_refl).
Defined.

Lemma forwardRequest_passes_response_witness :
  Api.status
    (fst (Api.run (answering 404 (js "{}")) 0
            (Api.forwardRequest jsstring sample_new_URL sample_set (fun u => u)
               Empty_set sample_toString None sample_options))) = 404.
Proof.
  rewrite (forwardRequest_passes_response sample_new_URL sample_set (fun u => u)
             sample_toString None sample_options (answering 404 (js "{}")) _
             eq_refl).
  reflexivity.
Defined.

Lemma build_init_headers_witness :
  Api.init_headers (Api.build_init Empty_set sample_toString sample_options)
    !! "Authorization" = Some (js "Bearer t0").
Proof.
  apply (build_init_headers (FormData := Empty_set) sample_toString
           sample_options); [reflexivity | discriminate].
Defined.

(** ** [proxyJsonResponse] *)

(** X9. [proxyJsonResponse] keeps the status and the text of the response
    and only its content type, [application/json] when the response names
    none, for every status from 200 to 599 that allows a body; for the
    statuses 204, 205 and 304 the construction of the new response throws
    a [TypeError], and for a status outside 200..599 a [RangeError]. *)
Theorem proxyJsonResponse_cases (res : Api.Response) :
  (200 <= Api.status res <= 599 ->
   Api.is_null_body_status (Api.status res) = false ->
   Api.proxyJsonResponse res =
     inl {| Api.status := Api.status res;
            Api.res_headers :=
              {[ "content-type" := Api.content_type_or_json res ]};
            Api.res_body := Api.res_body res |}) /\
  (Api.status res = 204 \/ Api.status res = 205 \/ Api.status res = 304 ->
   Api.proxyJsonResponse res = inr Api.TypeError) /\
  (Api.status res < 200 \/ 599 < Api.status res ->
   Api.proxyJsonResponse res = inr Api.RangeError) /\
  (Api.res_headers res !! "content-type" = None ->
   Api.content_type_or_json res = js "application/json").
Proof.
  unfold Api.proxyJsonResponse, Api.new_Response.
  split; [| split; [| split]].
  - intros [L U] N. rewrite N.
    destruct (Api.status res <? 200) eqn:E1; [apply Z.ltb_lt in E1; lia |].
    destruct (599 <? Api.status res) eqn:E2; [apply Z.ltb_lt in E2; lia |].
    reflexivity.
  - intros [E | [E | E]]; rewrite E; reflexivity.
  - intros [E | E].
    + apply Z.ltb_lt in E. now rewrite E.
    + apply Z.ltb_lt in E. rewrite E. now rewrite orb_true_r.
  - intros E. unfold Api.content_type_or_json. now rewrite E.
Qed.

Lemma proxyJsonResponse_cases_witness :
  Api.proxyJsonResponse
    {| Api.status := 204; Api.res_headers := ∅; Api.res_body := [] |}
  = inr Api.TypeError.
Proof.
  apply (proxyJsonResponse_cases
           {| Api.status := 204; Api.res_headers := ∅; Api.res_body := [] |}).
  left. reflexivity.
Defined.

(** ** The route handlers *)

Section RouteProperties.

Context {URL : Type} (new_URL : jsstring -> jsstring -> URL)
  (searchParams_set : jsstring -> jsstring -> URL -> URL)
  (URL_toString : URL -> jsstring) {FormData : Type}
  (Number_toString : number -> jsstring)
  (encodeURIComponent : jsstring -> jsstring).

Local Abbreviation forwardRequest :=
  (Api.forwardRequest URL new_URL searchParams_set URL_toString FormData
     Number_toString).
Local Abbreviation buildUrl :=
  (Api.buildUrl URL new_URL searchParams_set URL_toString Number_toString).
Local Abbreviation build_init := (Api.build_init FormData Number_toString).
Local Abbreviation summary_GET :=
  (Routes.summary_GET URL new_URL searchParams_set URL_toString FormData
     Number_toString).
Local Abbreviation task_PATCH :=
  (Routes.task_PATCH URL new_URL searchParams_set URL_toString FormData
     Number_toString encodeURIComponent).
Local Abbreviation task_DELETE :=
  (Routes.task_DELETE URL new_URL searchParams_set URL_toString FormData
     Number_toString encodeURIComponent).

(** The response a handler relays: the one of the back end, or the 502 made
    for a failed call. *)
Lemma forward_then_proxy (env : option jsstring)
    (options : Api.ForwardOptions FormData) (net : Api.Network FormData) :
  Api.run net 0
    (Api.bind (forwardRequest env options)
       (fun response => Api.Ret (Api.proxyJsonResponse response))) =
  (Api.proxyJsonResponse
     match net 0%nat (buildUrl env (Api.path options) (Api.query options))
             (build_init options) with
     | Api.Fulfilled res => res
     | Api.Rejected err => Api.unreachable_response Number_toString err
     end,
   [(buildUrl env (Api.path options) (Api.query options), build_init options)]).
Proof.
  unfold Api.forwardRequest. cbn [Api.bind Api.run].
  destruct (net 0%nat _ _); reflexivity.
Qed.

Lemma proxy_unreachable (err : Api.Thrown) :
  Api.proxyJsonResponse (Api.unreachable_response Number_toString err) =
  inl (Api.unreachable_response Number_toString err).
Proof.
  unfold Api.proxyJsonResponse, Api.new_Response, Api.content_type_or_json.
  cbn [Api.unreachable_response Api.status Api.res_headers Api.res_body].
  rewrite lookup_singleton_eq. reflexivity.
Qed.

(** X10. Without a [token] cookie, or with an empty one, the three handlers
    answer 401 with the code [NOT_AUTHORIZED] and never call the back
    end. *)
Theorem routes_require_token (env token : option jsstring)
    (query : list (jsstring * jsstring)) (sno : jsstring) (payload : Api.json)
    (net : Api.Network FormData) :
  Routes.cookie_set token = false ->
  let refused := (inl (Routes.not_authenticated Number_toString), []) in
  Api.run net 0 (summary_GET env token query) = refused /\
  Api.run net 0 (task_PATCH env token sno payload) = refused /\
  Api.run net 0 (task_DELETE env token sno) = refused /\
  Api.status (Routes.not_authenticated Number_toString) = 401 /\
  Api.res_body (Routes.not_authenticated Number_toString) =
    js "{" ++ quoted "error" ++ js ":{" ++ quoted "code" ++ js ":" ++
    quoted "NOT_AUTHORIZED" ++ js "," ++ quoted "message" ++ js ":" ++
    quoted "Not authenticated." ++ js "}}".
Proof.
  intros H. cbv zeta.
  unfold Routes.summary_GET, Routes.task_PATCH, Routes.task_DELETE.
  rewrite H. cbn [negb Api.run]. repeat split; reflexivity.
Qed.

(** X11. With a token, a handler calls the back end once, with the token as
    bearer credential, and when that call fails it answers with the 502
    response of [forwardRequest] unchanged: the status 502 and the code
    [BACKEND_UNREACHABLE] reach the browser. *)
Theorem routes_relay_unreachable (env : option jsstring) (t : jsstring)
    (sno : jsstring) (net : Api.Network FormData) (err : Api.Thrown) :
  t <> [] ->
  let options :=
    {| Api.path := js "/tasks/" ++ encodeURIComponent sno;
       Api.method := Some (js "DELETE"); Api.token := Some t;
       Api.query := None; Api.body := None; Api.headers := None |} in
  let url := buildUrl env (Api.path options) None in
  let init := build_init options in
  net 0%nat url init = Api.Rejected err ->
  Api.run net 0 (task_DELETE env (Some t) sno) =
    (inl (Api.unreachable_response Number_toString err), [(url, init)]) /\
  Api.init_headers init !! "Authorization" = Some (js "Bearer " ++ t) /\
  Api.init_method init = js "DELETE" /\
  Api.status (Api.unreachable_response Number_toString err) = 502.
Proof.
  intros Ht. cbv zeta. intros H.
  assert (C : Routes.cookie_set (Some t) = true)
    by (destruct t; [contradiction | reflexivity]).
  unfold Routes.task_DELETE. rewrite C. cbn [negb].
  rewrite forward_then_proxy. cbn [Api.path Api.query] in H |- *. rewrite H.
  rewrite proxy_unreachable.
  split; [reflexivity |]. split; [| split; reflexivity].
  unfold Api.build_init. cbn [Api.token Api.headers Api.body Api.init_headers].
  destruct t; [contradiction |]. cbn [truthy]. apply lookup_insert_eq.
Qed.

(** X12. When the back end answers a deletion with 204 (or any request
    with 204, 205 or 304), the handler does not relay the answer: building
    the relayed response throws a [TypeError]. A status from 200 to 599
    that allows a body is relayed with its text. *)
Theorem routes_relay_status (env : option jsstring) (t : jsstring)
    (sno : jsstring) (net : Api.Network FormData) (res : Api.Response) :
  t <> [] ->
  let options :=
    {| Api.path := js "/tasks/" ++ encodeURIComponent sno;
       Api.method := Some (js "DELETE"); Api.token := Some t;
       Api.query := None; Api.body := None; Api.headers := None |} in
  net 0%nat (buildUrl env (Api.path options) None) (build_init options)
    = Api.Fulfilled res ->
  (Api.status res = 204 \/ Api.status res = 205 \/ Api.status res = 304 ->
   fst (Api.run net 0 (task_DELETE env (Some t) sno)) = inr Api.TypeError) /\
  (200 <= Api.status res <= 599 ->
   Api.is_null_body_status (Api.status res) = false ->
   exists relayed,
     fst (Api.run net 0 (task_DELETE env (Some t) sno)) = inl relayed /\
     Api.status relayed = Api.status res /\
     Api.res_body relayed = Api.res_body res).
Proof.
  intros Ht. cbv zeta. intros H.
  assert (C : Routes.cookie_set (Some t) = true)
    by (destruct t; [contradiction | reflexivity]).
  unfold Routes.task_DELETE. rewrite C. cbn [negb].
  rewrite forward_then_proxy. cbn [Api.path Api.query fst] in H |- *.
  rewrite H.
  pose proof (proxyJsonResponse_cases res) as (P1 & P2 & _ & _).
  split.
  - exact P2.
  - intros R N. rewrite (P1 R N). eexists. split; [reflexivity |].
    split; reflexivity.
Qed.

End RouteProperties.

Lemma routes_require_token_witness :
  Api.run refusing 0
    (Routes.task_DELETE jsstring sample_new_URL sample_set (fun u => u)
       Empty_set sample_toString (fun s => s) None None (js "7"))
  = (inl (Routes.not_authenticated sample_toString), []).
Proof.
  exact (proj1 (proj2 (proj2
           (routes_require_token sample_new_URL sample_set (fun u => u)
              sample_toString (fun s => s) None None [] (js "7") Api.JNull
              refusing eq_refl)))).
Defined.

Lemma routes_relay_unreachable_witness :
  fst (Api.run refusing 0
         (Routes.task_DELETE jsstring sample_new_URL sample_set (fun u => u)
            Empty_set sample_toString (fun s => s) None (Some (js "t0")) (js "7")))
  = inl (Api.unreachable_response sample_toString
           (Api.ThrownError (js "fetch failed"))).
Proof.
  assert (N : js "t0" <> []) by discriminate.
  rewrite (proj1 (routes_relay_unreachable sample_new_URL sample_set
                    (fun u => u) sample_toString (fun s => s) None (js "t0")
                    (js "7") refusing (Api.ThrownError (js "fetch failed"))
                    N eq_refl)).
  reflexivity.
Defined.

Lemma routes_relay_status_witness :
  fst (Api.run (answering 204 []) 0
         (Routes.task_DELETE jsstring sample_new_URL sample_set (fun u => u)
            Empty_set sample_toString (fun s => s) None (Some (js "t0")) (js "7")))
  = inr Api.TypeError.
Proof.
  assert (N : js "t0" <> []) by discriminate.
  apply (proj1 (routes_relay_status sample_new_URL sample_set (fun u => u)
                  sample_toString (fun s => s) None (js "t0") (js "7")
                  (answering 204 []) _ N eq_refl)).
  left. reflexivity.
Defined.

(** ** The routing guard and the page guards *)

Lemma startsWith_cons2 (a b : N) (p : jsstring) (s : jsstring) :
  Middleware.startsWith (a :: b :: p) s = true ->
  exists r, s = a :: b :: r.
Proof.
  destruct s as [| c0 [| c1 r]]; cbn; try discriminate.
  - rewrite andb_false_r. discriminate.
  - intros H. apply andb_true_iff in H as [H0 H]. apply andb_true_iff in H as [H1 _].
    apply N.eqb_eq in H0, H1. subst. now exists r.
Qed.

Lemma startsWith_other (a b b' : N) (p' r : jsstring) :
  b <> b' -> Middleware.startsWith (a :: b' :: p') (a :: b :: r) = false.
Proof.
  intros N. cbn. apply N.eqb_neq in N. rewrite N.eqb_sym in N.
  rewrite N. cbn. apply andb_false_r.
Qed.

Lemma js_login : js "/login" = [47; 108; 111; 103; 105; 110]%N.
Proof. reflexivity. Qed.
Lemma js_admin : js "/admin" = [47; 97; 100; 109; 105; 110]%N.
Proof. reflexivity. Qed.
Lemma js_user : js "/user" = [47; 117; 115; 101; 114]%N.
Proof. reflexivity. Qed.

Lemma eqb_root_long (a b : N) (r : jsstring) :
  JsString.eqb (a :: b :: r) (js "/") = false.
Proof. unfold JsString.eqb. destruct (decide _); [discriminate | reflexivity]. Qed.

Lemma login_prefix (s : jsstring) :
  Middleware.startsWith (js "/login") s = true ->
  Middleware.startsWith (js "/admin") s = false /\
  Middleware.startsWith (js "/user") s = false /\
  JsString.eqb s (js "/") = false.
Proof.
  rewrite js_login, js_admin, js_user. intros H.
  apply startsWith_cons2 in H as [r ->].
  rewrite !startsWith_other by (apply N.eqb_neq; reflexivity).
  now rewrite eqb_root_long.
Qed.

Lemma admin_prefix (s : jsstring) :
  Middleware.startsWith (js "/admin") s = true ->
  Middleware.startsWith (js "/login") s = false /\
  Middleware.startsWith (js "/user") s = false /\
  JsString.eqb s (js "/") = false.
Proof.
  rewrite js_login, js_admin, js_user. intros H.
  apply startsWith_cons2 in H as [r ->].
  rewrite !startsWith_other by (apply N.eqb_neq; reflexivity).
  now rewrite eqb_root_long.
Qed.

Lemma user_prefix (s : jsstring) :
  Middleware.startsWith (js "/user") s = true ->
  Middleware.startsWith (js "/login") s = false /\
  Middleware.startsWith (js "/admin") s = false /\
  JsString.eqb s (js "/") = false.
Proof.
  rewrite js_login, js_admin, js_user. intros H.
  apply startsWith_cons2 in H as [r ->].
  rewrite !startsWith_other by (apply N.eqb_neq; reflexivity).
  now rewrite eqb_root_long.
Qed.

(** X13. The middleware lets a request through to a path under [/admin]
    only with a token and the role [admin], to a path under [/user] only
    with a token and a role, and never to the root path. *)
Theorem middleware_guards (pathname : jsstring) (token role : option jsstring) :
  Middleware.middleware pathname token role = Middleware.Next ->
  (Middleware.startsWith (js "/admin") pathname = true ->
   Middleware.present token = true /\ Middleware.is_admin role = true) /\
  (Middleware.startsWith (js "/user") pathname = true ->
   Middleware.present token = true /\ Middleware.present role = true) /\
  pathname <> js "/".
Proof.
  unfold Middleware.middleware. intros H. split; [| split].
  - intros A. apply admin_prefix in A as A'. destruct A' as (L & U & R).
    rewrite L, R, A, U in H.
    destruct (Middleware.present token), (Middleware.present role),
      (Middleware.is_admin role); cbn in H; try discriminate. now split.
  - intros U. apply user_prefix in U as U'. destruct U' as (L & A & R).
    rewrite L, R, A, U in H.
    destruct (Middleware.present token), (Middleware.present role);
      cbn in H; try discriminate. now split.
  - intros ->.
    change (Middleware.startsWith (js "/login") (js "/")) with false in H.
    change (JsString.eqb (js "/") (js "/")) with true in H.
    destruct (negb (Middleware.present token) || negb (Middleware.present role)),
      (Middleware.is_admin role); discriminate.
Qed.

Lemma middleware_guards_witness :
  Middleware.present (Some (js "t0")) = true /\
  Middleware.is_admin (Some (js "admin")) = true.
Proof.
  exact (proj1 (middleware_guards (js "/admin/users") (Some (js "t0"))
                  (Some (js "admin")) eq_refl) eq_refl).
Defined.

Lemma middleware_at_login (token role : option jsstring) :
  Middleware.present token && Middleware.present role = false ->
  Middleware.middleware (js "/login") token role = Middleware.Next.
Proof.
  intros H. unfold Middleware.middleware.
  change (Middleware.startsWith (js "/login") (js "/login")) with true.
  cbv iota. now rewrite H.
Qed.

Lemma middleware_at_admin_tasks (token role : option jsstring) :
  Middleware.present token = true -> Middleware.present role = true ->
  Middleware.is_admin role = true ->
  Middleware.middleware (js "/admin/tasks") token role = Middleware.Next.
Proof.
  intros Ht Hr Ha. unfold Middleware.middleware.
  change (Middleware.startsWith (js "/login") (js "/admin/tasks")) with false.
  change (JsString.eqb (js "/admin/tasks") (js "/")) with false.
  change (Middleware.startsWith (js "/admin") (js "/admin/tasks")) with true.
  change (Middleware.startsWith (js "/user") (js "/admin/tasks")) with false.
  cbv iota. now rewrite Ht, Hr, Ha.
Qed.

Lemma middleware_at_new_task (token role : option jsstring) :
  Middleware.present token = true -> Middleware.present role = true ->
  Middleware.middleware (js "/user/new-task") token role = Middleware.Next.
Proof.
  intros Ht Hr. unfold Middleware.middleware.
  change (Middleware.startsWith (js "/login") (js "/user/new-task")) with false.
  change (JsString.eqb (js "/user/new-task") (js "/")) with false.
  change (Middleware.startsWith (js "/admin") (js "/user/new-task")) with false.
  change (Middleware.startsWith (js "/user") (js "/user/new-task")) with true.
  cbv iota. now rewrite Ht, Hr.
Qed.

(** X14. The middleware never redirects twice: the path it sends a browser
    to is let through for the same cookies. *)
Theorem middleware_no_redirect_loop (pathname target : jsstring)
    (token role : option jsstring) :
  Middleware.middleware pathname token role = Middleware.Redirect target ->
  Middleware.middleware target token role = Middleware.Next.
Proof.
  unfold Middleware.middleware at 1.
  destruct (Middleware.present token) eqn:Ht;
    destruct (Middleware.present role) eqn:Hr;
    destruct (Middleware.is_admin role) eqn:Ha;
    destruct (Middleware.startsWith (js "/login") pathname);
    destruct (JsString.eqb pathname (js "/"));
    destruct (Middleware.startsWith (js "/admin") pathname);
    destruct (Middleware.startsWith (js "/user") pathname);
    cbn [negb orb andb]; intros H; try discriminate;
    injection H as <-;
    first [ now apply middleware_at_admin_tasks
          | now apply middleware_at_new_task
          | apply middleware_at_login; now rewrite Ht, Hr ].
Qed.

Lemma middleware_no_redirect_loop_witness :
  Middleware.middleware (js "/login") None None = Middleware.Next.
Proof.
  exact (middleware_no_redirect_loop (js "/admin/users") (js "/login") None None
           eq_refl).
Defined.

(** X15. [requireAuth] returns only for cookies with a token and a role,
    and, when roles are given, only for a role among them; what it returns
    is the cookies it was given. Otherwise it redirects to [/login] without
    a token or a role, and else to [/admin/tasks] for the role [admin] and
    to [/user/new-task] for any other role. *)
Theorem requireAuth_returns_allowed (auth : Auth.AuthInfo)
    (allowedRoles : option (list jsstring)) :
  (forall a, Auth.requireAuth auth allowedRoles = Auth.Returned a ->
     a = auth /\
     Middleware.present (Auth.token auth) = true /\
     exists r, Auth.role auth = Some r /\ r <> [] /\
       forall roles, allowedRoles = Some roles -> Auth.includes roles r = true) /\
  (forall target, Auth.requireAuth auth allowedRoles = Auth.Redirected target ->
     target = js "/login" \/
     (target = js "/admin/tasks" /\ Auth.role auth = Some (js "admin")) \/
     (target = js "/user/new-task" /\ Auth.role auth <> Some (js "admin") /\
      Middleware.present (Auth.role auth) = true)).
Proof.
  unfold Auth.requireAuth.
  destruct (Auth.token auth) as [t |] eqn:Et, (Auth.role auth) as [r |] eqn:Er;
    try (split; [discriminate | intros target H; injection H as <-; now left]).
  destruct t as [| tc t]; cbn [truthy negb orb];
    try (split; [discriminate | intros target H; injection H as <-; now left]).
  destruct r as [| rc r]; cbn [truthy negb orb];
    try (split; [discriminate | intros target H; injection H as <-; now left]).
  destruct allowedRoles as [roles |].
  - destruct (Auth.includes roles (rc :: r)) eqn:I; cbn [negb].
    + split; [| discriminate]. intros a H. injection H as <-.
      split; [reflexivity |]. split; [reflexivity |].
      exists (rc :: r). split; [reflexivity |]. split; [discriminate |].
      intros roles' E. injection E as <-. exact I.
    + destruct (JsString.eqb (rc :: r) (js "admin")) eqn:A;
        (split; [discriminate |]); intros target H; injection H as <-.
      * right. left. apply jsstring_eqb_eq in A. now rewrite A.
      * right. right. split; [reflexivity |]. split; [| reflexivity].
        intros E.
        assert (Q : JsString.eqb (rc :: r) (js "admin") = true)
          by (apply jsstring_eqb_eq; congruence).
        congruence.
  - split; [| discriminate]. intros a H. injection H as <-.
    split; [reflexivity |]. split; [reflexivity |].
    exists (rc :: r). split; [reflexivity |]. split; [discriminate |].
    discriminate.
Qed.

Lemma requireAuth_returns_allowed_witness :
  Auth.includes [js "admin"] (js "admin") = true.
Proof.
  destruct (proj1 (requireAuth_returns_allowed
                     {| Auth.token := Some (js "t0");
                        Auth.role := Some (js "admin");
                        Auth.username := None |}
                     (Some [js "admin"])) _ eq_refl)
    as (_ & _ & r & E & _ & H).
  injection E as <-. exact (H _ eq_refl).
Defined.

Ltac auth_cases auth :=
  destruct auth as [[[| tc t] |] [[| rc r] |] username];
  cbn [Auth.token Auth.role Middleware.present Middleware.is_admin truthy
         negb orb andb Auth.includes existsb].

(** X16. The middleware and the page guards agree. On a path under
    [/admin] the middleware answers as the guard of the admin pages does:
    it lets the request through when the guard returns and redirects to the
    same path when the guard redirects. On a path under [/user] it answers
    as the guard of the user pages does for the roles [user] and [admin].
    At the root path it redirects where the home page redirects. *)
Theorem guards_agree (pathname : jsstring) (auth : Auth.AuthInfo) :
  (Middleware.startsWith (js "/admin") pathname = true ->
   Middleware.middleware pathname (Auth.token auth) (Auth.role auth) =
   guard_outcome (Auth.AdminPage auth)) /\
  (Middleware.startsWith (js "/user") pathname = true ->
   Auth.role auth = Some (js "user") \/ Auth.role auth = Some (js "admin") ->
   Middleware.middleware pathname (Auth.token auth) (Auth.role auth) =
   guard_outcome (Auth.UserPage auth)) /\
  Middleware.middleware (js "/") (Auth.token auth) (Auth.role auth) =
    Middleware.Redirect (Auth.Home auth).
Proof.
  split; [| split].
  - intros A. apply admin_prefix in A as A'. destruct A' as (L & U & R).
    unfold Middleware.middleware, Auth.AdminPage, Auth.requireAuth.
    rewrite L, R, A, U. auth_cases auth; try reflexivity;
      destruct (JsString.eqb (rc :: r) (js "admin")); reflexivity.
  - intros U Hr. apply user_prefix in U as U'. destruct U' as (L & A & R).
    unfold Middleware.middleware, Auth.UserPage, Auth.requireAuth.
    rewrite L, R, A, U.
    destruct auth as [token role username]. cbn [Auth.role Auth.token] in *.
    destruct Hr as [-> | ->]; destruct token as [[| tc t] |]; reflexivity.
  - unfold Middleware.middleware, Auth.Home.
    change (Middleware.startsWith (js "/login") (js "/")) with false.
    change (JsString.eqb (js "/") (js "/")) with true. cbv iota.
    auth_cases auth; try reflexivity;
      destruct (JsString.eqb (rc :: r) (js "admin")); reflexivity.
Qed.

Lemma guards_agree_witness :
  Middleware.middleware (js "/admin/users") (Some (js "t0")) (Some (js "user")) =
  Middleware.Redirect (js "/user/new-task").
Proof.
  exact (proj1 (guards_agree (js "/admin/users")
                  {| Auth.token := Some (js "t0"); Auth.role := Some (js "user");
                     Auth.username := None |}) eq_refl).
Defined.

(** X17. For the roles [user] and [admin] a redirect of a page guard ends
    at a page whose guard returns. For a role that is neither, the guard of
    the user pages redirects to [/user/new-task], a page under that same
    guard, and the middleware lets that request through. *)
Theorem page_guard_redirects (auth : Auth.AuthInfo) (r : jsstring) :
  Middleware.present (Auth.token auth) = true ->
  Auth.role auth = Some r -> r <> [] ->
  (r = js "admin" ->
   Auth.AdminPage auth = Auth.Returned auth /\
   Auth.UserPage auth = Auth.Returned auth) /\
  (r = js "user" ->
   Auth.AdminPage auth = Auth.Redirected (js "/user/new-task") /\
   Auth.UserPage auth = Auth.Returned auth) /\
  (r <> js "admin" -> r <> js "user" ->
   Auth.UserPage auth = Auth.Redirected (js "/user/new-task") /\
   Middleware.middleware (js "/user/new-task") (Auth.token auth) (Auth.role auth)
     = Middleware.Next).
Proof.
  intros Ht Hr Hn.
  destruct auth as [[[| tc t] |] role username]; cbn in Ht; try discriminate.
  cbn [Auth.role] in Hr. subst role.
  destruct r as [| rc r]; [contradiction |].
  unfold Auth.AdminPage, Auth.UserPage, Auth.requireAuth.
  cbn [Auth.token Auth.role truthy negb orb Auth.includes existsb].
  split; [| split].
  - intros ->. split; reflexivity.
  - intros ->. split; reflexivity.
  - intros Na Nu.
    assert (A : JsString.eqb (rc :: r) (js "admin") = false).
    { destruct (JsString.eqb (rc :: r) (js "admin")) eqn:E; [| reflexivity].
      apply jsstring_eqb_eq in E. contradiction. }
    assert (U : JsString.eqb (rc :: r) (js "user") = false).
    { destruct (JsString.eqb (rc :: r) (js "user")) eqn:E; [| reflexivity].
      apply jsstring_eqb_eq in E. contradiction. }
    rewrite A, U. cbn [orb negb]. split; [reflexivity |].
    now apply middleware_at_new_task.
Qed.

Lemma page_guard_redirects_witness :
  Auth.UserPage {| Auth.token := Some (js "t0"); Auth.role := Some (js "guest");
                   Auth.username := None |}
  = Auth.Redirected (js "/user/new-task").
Proof.
  assert (N : js "guest" <> []) by discriminate.
  assert (Na : js "guest" <> js "admin") by discriminate.
  assert (Nu : js "guest" <> js "user") by discriminate.
  exact (proj1 (proj2 (proj2 (page_guard_redirects
                  {| Auth.token := Some (js "t0"); Auth.role := Some (js "guest");
                     Auth.username := None |} (js "guest") eq_refl eq_refl N))
                  Na Nu)).
Defined.

(** ** Rounding never yields NaN *)

Lemma shr_1_nonneg (mrs : shr_record) :
  0 <= shr_m mrs -> 0 <= shr_m (shr_1 mrs).
Proof.
  destruct mrs as [m r s0]. cbn [shr_m]. intros H.
  destruct m as [| [p | p |] | p]; cbn; lia.
Qed.

Lemma iter_pos_shr_1_nonneg (p : positive) (mrs : shr_record) :
  0 <= shr_m mrs -> 0 <= shr_m (SpecFloat.iter_pos shr_1 p mrs).
Proof.
  revert mrs. induction p as [p IH | p IH |]; intros mrs H; cbn [SpecFloat.iter_pos].
  - apply IH, IH, shr_1_nonneg, H.
  - apply IH, IH, H.
  - apply shr_1_nonneg, H.
Qed.

Lemma shr_fexp_nonneg (m e : Z) (l : location) :
  0 <= m -> 0 <= shr_m (fst (shr_fexp prec emax m e l)).
Proof.
  intros H. unfold shr_fexp, shr.
  assert (S : shr_m (shr_record_of_loc m l) = m)
    by (destruct l as [| []]; reflexivity).
  destruct (fexp prec emax (Zdigits2 m + e) - e) as [| p | p]; cbn [fst];
    try (rewrite S; exact H).
  apply iter_pos_shr_1_nonneg. rewrite S. exact H.
Qed.

Lemma round_nearest_even_nonneg (m : Z) (l : location) :
  0 <= m -> 0 <= round_nearest_even m l.
Proof.
  intros H. unfold round_nearest_even.
  destruct l as [| []]; try destruct (Z.even m); lia.
Qed.

Lemma binary_round_aux_sign (sx : bool) (mx ex : Z) (lx : location) :
  0 <= mx ->
  let x := binary_round_aux prec emax sx mx ex lx in
  x = S754_zero sx \/ x = S754_infinity sx \/ exists m e, x = S754_finite sx m e.
Proof.
  intros H. cbv zeta. unfold binary_round_aux.
  pose proof (shr_fexp_nonneg mx ex lx H) as H1.
  destruct (shr_fexp prec emax mx ex lx) as [mrs' e'] eqn:E1. cbn [fst] in H1.
  pose proof (shr_fexp_nonneg _ e' loc_Exact
                (round_nearest_even_nonneg _ (loc_of_shr_record mrs') H1)) as H2.
  destruct (shr_fexp prec emax (round_nearest_even _ _) e' loc_Exact)
    as [mrs'' e''] eqn:E2.
  cbn [fst] in H2. destruct (shr_m mrs'') as [| m | m].
  - now left.
  - destruct (e'' <=? emax - prec); [right; right; now exists m, e'' | right; now left].
  - lia.
Qed.

Lemma of_ratio_sign (negative : bool) (p q : Z) :
  0 <= p -> 0 < q ->
  let x := of_ratio negative p q in
  x = S754_zero negative \/ x = S754_infinity negative \/
  exists m e, x = S754_finite negative m e.
Proof.
  intros Hp Hq. cbv zeta. unfold of_ratio.
  destruct p as [| p | p]; [now left | | lia].
  unfold SFdiv_core_binary.
  set (e' := Z.min _ _). set (m' := match 0 - 0 - e' with Z0 => _ | _ => _ end).
  assert (M : 0 <= m').
  { unfold m'. destruct (0 - 0 - e'); try lia. apply Z.shiftl_nonneg. lia. }
  pose proof (Z_div_mod m' q ltac:(lia)) as D.
  destruct (Z.div_eucl m' q) as [quo r]. destruct D as [D1 D2].
  apply binary_round_aux_sign. nia.
Qed.

Lemma of_ratio_accepted (p q : Z) :
  0 <= p -> 0 < q ->
  isNaN (of_ratio false p q) = false /\ lt (of_ratio false p q) pos_zero = false.
Proof.
  intros Hp Hq.
  destruct (of_ratio_sign false p q Hp Hq) as [E | [E | (m & e & E)]];
    rewrite E; split; reflexivity.
Qed.
